(** * Sprattus test tooling

    A shallow embedding of the four scripts under [tests/sprattus]
    ([double_to_smt.py], [extract_config.py], [convert_old_config.py] and
    [check.py]) together with the properties established about them.

    Layout: the Python built-ins the scripts call ([Py]), then one module
    per script holding its embedding, then the theorems. *)

From Stdlib Require Import ZArith List String Ascii Bool Lia SpecFloat.
Import ListNotations.
Local Open Scope string_scope.
Set Warnings "-register-all".

(* ================================================================== *)
(** ** Python built-ins used by the scripts *)
(* ================================================================== *)

Module Py.

(** The line terminator ['\n']. *)
Definition nl : string := String "010"%char "".

(** Exceptions the scripts can die with. *)
Inductive exn : Set :=
| AssertionError
| IndexError
| KeyError
| TypeError
| AttributeError
| ValueError
| YAMLError.

(** How a run of a script ends: it falls off the end of the module,
    it calls [sys.exit(code)], or an exception raised at source line
    [lineno] stays unhandled. *)
Inductive outcome : Set :=
| Finished
| Exited (code : Z)
| Raised (e : exn) (lineno : nat).

(** The status the process reports to its caller. *)
Definition exit_status (o : outcome) : Z :=
  match o with
  | Finished => 0
  | Exited code => code
  | Raised _ _ => 1
  end.

(** [sub in s] *)
Fixpoint contains (sub s : string) : bool :=
  prefix sub s ||
  match s with
  | "" => false
  | String _ s' => contains sub s'
  end.

(** [s.endswith(suffix)] *)
Definition endswith (s suffix : string) : bool :=
  let n := length s in
  let m := length suffix in
  (m <=? n)%nat && (substring (n - m) m s =? suffix).

(** Every character of [s] satisfies [P]. *)
Fixpoint chars_all (P : ascii -> Prop) (s : string) : Prop :=
  match s with
  | "" => True
  | String c s' => P c /\ chars_all P s'
  end.

(** [s.lstrip(..)] and [s.rstrip(..)], for the set of characters [p]. *)
Fixpoint lstrip (p : ascii -> bool) (s : string) : string :=
  match s with
  | "" => ""
  | String c s' => if p c then lstrip p s' else s
  end.

Fixpoint rstrip (p : ascii -> bool) (s : string) : string :=
  match s with
  | "" => ""
  | String c s' =>
      match rstrip p s' with
      | "" => if p c then "" else String c ""
      | r => String c r
      end
  end.

Definition strip_with (p : ascii -> bool) (s : string) : string :=
  rstrip p (lstrip p s).

(** Whitespace as [str.strip()] sees it: tab, newline, vertical tab,
    form feed, carriage return and space. *)
Definition is_space (c : ascii) : bool :=
  let n := nat_of_ascii c in
  ((9 <=? n) && (n <=? 13))%nat || (n =? 32)%nat.

(** [s.strip()] *)
Definition strip (s : string) : string := strip_with is_space s.

Fixpoint mem_char (c : ascii) (chars : string) : bool :=
  match chars with
  | "" => false
  | String d chars' => Ascii.eqb c d || mem_char c chars'
  end.

(** [s.strip(chars)] *)
Definition strip_chars (s chars : string) : string :=
  strip_with (fun c => mem_char c chars) s.

(** [s.split(sep)] for a non-empty [sep]: [skip] counts the characters
    of a separator just recognised that are still to be passed over,
    [cur] is the piece being collected. *)
Fixpoint split_from (sep : string) (skip : nat) (cur s : string)
  : list string :=
  match s with
  | "" => [cur]
  | String c s' =>
      match skip with
      | S k => split_from sep k cur s'
      | O =>
          if prefix sep s
          then cur :: split_from sep (length sep - 1) "" s'
          else split_from sep 0 (cur ++ String c "") s'
      end
  end.

Definition split (s sep : string) : list string := split_from sep 0 "" s.

(** [sep.join(pieces)] *)
Definition join (sep : string) (pieces : list string) : string :=
  String.concat sep pieces.

(** [fmt % args] for the conversions the scripts use, [%s] and [%%];
    the arguments arrive already converted by [str].  [None] is the
    [TypeError]/[ValueError] of a format that does not fit. *)
Fixpoint format (fmt : string) (args : list string) : option string :=
  match fmt with
  | "" => match args with [] => Some "" | _ :: _ => None end
  | String "%" (String "%" rest) => option_map (String "%") (format rest args)
  | String "%" (String "s" rest) =>
      match args with
      | a :: args' => option_map (append a) (format rest args')
      | [] => None
      end
  | String "%" _ => None
  | String c rest => option_map (String c) (format rest args)
  end.

(** [s[i:j]] and [s[i:]] for in-range non-negative bounds. *)
Definition slice (s : string) (i j : nat) : string := substring i (j - i) s.
Definition slice_from (s : string) (i : nat) : string :=
  substring i (length s - i) s.

(** The digit characters of [format(n, 'b')] and [format(n, 'x')]. *)
Definition digit_char (d : Z) : ascii :=
  match d with
  | 0 => "0" | 1 => "1" | 2 => "2" | 3 => "3" | 4 => "4"
  | 5 => "5" | 6 => "6" | 7 => "7" | 8 => "8" | 9 => "9"
  | 10 => "a" | 11 => "b" | 12 => "c" | 13 => "d" | 14 => "e"
  | _ => "f"
  end%Z%char.

(** The digits of a non-negative [n] in [base], most significant first. *)
Fixpoint digits_of (base : Z) (fuel : nat) (n : Z) : string :=
  match fuel with
  | O => ""
  | S fuel' =>
      if (n <? base)%Z then String (digit_char n) ""
      else digits_of base fuel' (n / base) ++ String (digit_char (n mod base)) ""
  end.

(** The [w] low digits of [n] in [base], most significant first. *)
Fixpoint fixed_digits (base : Z) (w : nat) (n : Z) : string :=
  match w with
  | O => ""
  | S w' => fixed_digits base w' (n / base) ++ String (digit_char (n mod base)) ""
  end.

Fixpoint zeros (k : nat) : string :=
  match k with
  | O => ""
  | S k' => String "0" (zeros k')
  end.

(** [format(n, '0<width>b')] (base 2) and [format(n, '0<width>x')]
    (base 16): a sign for a negative number, then the digits padded with
    zeros up to [width] characters in all. *)
Definition format_int (base : Z) (width : nat) (n : Z) : string :=
  let sign := if (n <? 0)%Z then "-" else "" in
  let a := Z.abs n in
  let ds := digits_of base (S (Z.to_nat (Z.log2 a))) a in
  sign ++ zeros (width - length sign - length ds) ++ ds.

(** The value of one digit character, for [int(s, base)]. *)
Definition digit_value (c : ascii) : option Z :=
  let n := Z.of_nat (nat_of_ascii c) in
  if ((48 <=? n) && (n <=? 57))%Z then Some (n - 48)%Z
  else if ((97 <=? n) && (n <=? 122))%Z then Some (n - 87)%Z
  else if ((65 <=? n) && (n <=? 90))%Z then Some (n - 55)%Z
  else None.

Fixpoint int_digits (base : Z) (acc : Z) (s : string) : option Z :=
  match s with
  | "" => Some acc
  | String c s' =>
      match digit_value c with
      | Some d => if (d <? base)%Z then int_digits base (acc * base + d) s' else None
      | None => None
      end
  end.

(** [int(s, base)] on a plain run of digits; [None] is [ValueError]
    (signs, blanks and base prefixes, which Python also accepts, do not
    occur in the strings the scripts convert). *)
Definition int_of (s : string) (base : Z) : option Z :=
  match s with
  | "" => None
  | _ => int_digits base 0 s
  end.

(** [s[n:]] *)
Fixpoint drop (n : nat) (s : string) : string :=
  match n, s with
  | S n', String _ s' => drop n' s'
  | _, _ => s
  end.

(** Where the first ['\n'] of [s] cuts it: the text before it, and the
    remainder from that ['\n'] on (empty when there is none). *)
Fixpoint break_at_newline (s : string) : string * string :=
  match s with
  | "" => ("", "")
  | String c s' =>
      if Ascii.eqb c "010" then ("", s)
      else let (body, rest) := break_at_newline s' in (String c body, rest)
  end.

(** The lines a file object yields, each with its terminator; only the
    last one can lack it.  [cur] is the line being read. *)
Fixpoint readlines_from (cur s : string) : list string :=
  match s with
  | "" => match cur with "" => [] | _ => [cur] end
  | String c s' =>
      if Ascii.eqb c "010" then (cur ++ nl) :: readlines_from "" s'
      else readlines_from (cur ++ String c "") s'
  end.

Definition readlines (content : string) : list string :=
  readlines_from "" content.

(** [string.ascii_letters] *)
Definition ascii_letters : string :=
  "abcdefghijklmnopqrstuvwxyzABCDEFGHIJKLMNOPQRSTUVWXYZ".

(** [zip] of the characters of a string with a list. *)
Fixpoint zip_chars {A : Type} (s : string) (l : list A) : list (string * A) :=
  match s, l with
  | String c s', x :: l' => (String c "", x) :: zip_chars s' l'
  | _, _ => []
  end.

End Py.

(* ================================================================== *)
(** ** double_to_smt.py *)
(* ================================================================== *)

Module DoubleToSmt.
Import Py.

(** A Python [float]: an IEEE-754 binary64 datum, [S754_finite s m e]
    standing for [(-1)^s * m * 2^e] with [m] below [2^53] and [e] at
    least [-1074]. *)
Definition float64 : Set := spec_float.

Definition canonical (x : float64) : bool :=
  match x with
  | S754_finite _ m e => bounded 53 1024 m e
  | _ => true
  end.

Definition sign_bit (s : bool) : Z := if s then 1 else 0.

(** The 64-bit pattern of a binary64 datum: sign at bit 63, the biased
    exponent in bits 62..52, the fraction in bits 51..0.  Python's
    [float('nan')] is the quiet NaN [0x7ff8000000000000]. *)
Definition bits_of_float64 (x : float64) : Z :=
  match x with
  | S754_zero s => Z.shiftl (sign_bit s) 63
  | S754_infinity s => Z.lor (Z.shiftl (sign_bit s) 63) (Z.shiftl 2047 52)
  | S754_nan => 0x7ff8000000000000
  | S754_finite s m e =>
      let body :=
        if (Z.shiftl 1 52 <=? Zpos m)%Z
        then Z.lor (Z.shiftl (e + 1075) 52) (Zpos m - Z.shiftl 1 52)
        else Zpos m in
      Z.lor (Z.shiftl (sign_bit s) 63) body
  end.

(** [struct.pack('!d', x)]: the eight bytes of the pattern, most
    significant first. *)
Definition pack_d (x : float64) : list Z :=
  let b := bits_of_float64 x in
  map (fun i => (b / 2 ^ (8 * i)) mod 256)%Z [7; 6; 5; 4; 3; 2; 1; 0]%Z.

(** [struct.unpack('!Q', data)[0]]: eight bytes read as one unsigned
    big-endian integer; any other length is [struct.error]. *)
Definition unpack_Q (data : list Z) : option Z :=
  if (List.length data =? 8)%nat
  then Some (fold_left (fun acc b => acc * 256 + b)%Z data 0%Z)
  else None.

(** [double_to_smt(x)]; [None] would be an exception escaping one of the
    conversions. *)
Definition double_to_smt (x : float64) : option string :=
  match unpack_Q (pack_d x) with
  | None => None
  | Some as_ull =>
      let bits := format_int 2 64 as_ull in
      let exponent := slice bits 1 12 in
      let significand := slice_from bits 12 in
      match int_of significand 2 with
      | None => None
      | Some n =>
          let significand := format_int 16 13 n in
          Some ("(fp #b" ++ slice bits 0 1 ++ " #b" ++ exponent
                ++ " #x" ++ significand ++ ")")
      end
  end.

(** The literals [gen_literal_test] feeds to [float]. *)
Definition nums : list string :=
  ["1.0"; "-1.0"; "2.0"; "-2.0"; "+0.0"; "-0.0"; "+inf"; "-inf";
   "4.9406564584124654e-324"; "-4.9406564584124654e-324"].

Section GenLiteralTest.

(** [float(s)], Python's own conversion of a literal to the nearest
    binary64 datum ([None]: [ValueError]). *)
Variable py_float : string -> option float64.

(** One round of the first loop: a [print] appends a line to what the
    script has written so far. *)
Definition print_run_line (out : list string) (p : string * string)
  : option (list string) :=
  let (var, num) := p in
  match py_float num with
  | None => None
  | Some x =>
      match double_to_smt x with
      | None => None
      | Some lit =>
          match format "; RUN: grep '%s -> %s' %%t2" [var; lit] with
          | None => None
          | Some line => Some (out ++ [line])%list
          end
      end
  end.

(** One round of the second loop. *)
Definition print_fadd_line (out : list string) (p : string * string)
  : option (list string) :=
  let (var, num) := p in
  match format "%%%s = fadd double 0.0, %s" [var; num] with
  | None => None
  | Some line => Some (out ++ [line])%list
  end.

(** A [for] loop whose body may raise. *)
Fixpoint for_each {A S : Type} (body : S -> A -> option S) (st : S)
  (xs : list A) : option S :=
  match xs with
  | [] => Some st
  | x :: xs' =>
      match body st x with
      | None => None
      | Some st' => for_each body st' xs'
      end
  end.

(** [gen_literal_test()]: the lines printed, in order. *)
Definition gen_literal_test : option (list string) :=
  match for_each print_run_line [] (zip_chars ascii_letters nums) with
  | None => None
  | Some out => for_each print_fadd_line out (zip_chars ascii_letters nums)
  end.

End GenLiteralTest.

(** The ten test doubles as data. *)
Definition d_one : float64 := S754_finite false 4503599627370496 (-52).
Definition d_minus_one : float64 := S754_finite true 4503599627370496 (-52).
Definition d_two : float64 := S754_finite false 4503599627370496 (-51).
Definition d_minus_two : float64 := S754_finite true 4503599627370496 (-51).
Definition d_zero : float64 := S754_zero false.
Definition d_minus_zero : float64 := S754_zero true.
Definition d_inf : float64 := S754_infinity false.
Definition d_minus_inf : float64 := S754_infinity true.
Definition d_min_subnormal : float64 := S754_finite false 1 (-1074).
Definition d_minus_min_subnormal : float64 := S754_finite true 1 (-1074).

Definition test_doubles : list float64 :=
  [d_one; d_minus_one; d_two; d_minus_two; d_zero; d_minus_zero;
   d_inf; d_minus_inf; d_min_subnormal; d_minus_min_subnormal].

(** *** Reading a literal back

    Written from the form the specification gives a literal, an opening
    [(fp #b], one sign bit, [ #b], eleven exponent bits, [ #x], thirteen
    significand nibbles and a closing bracket; used to state the round
    trip only. *)

(** [s] without its prefix [p], if it starts with it. *)
Definition after_prefix (p s : string) : option string :=
  if prefix p s then Some (drop (length p) s) else None.

(** The first [n] characters of [s] and the rest, if there are as many. *)
Definition take (n : nat) (s : string) : option (string * string) :=
  if (n <=? length s)%nat then Some (substring 0 n s, drop n s) else None.

(** The three fields of a literal. *)
Definition fields (lit : string) : option (string * string * string) :=
  match after_prefix "(fp #b" lit with
  | None => None
  | Some r =>
  match take 1 r with
  | None => None
  | Some (sign, r) =>
  match after_prefix " #b" r with
  | None => None
  | Some r =>
  match take 11 r with
  | None => None
  | Some (exponent, r) =>
  match after_prefix " #x" r with
  | None => None
  | Some r =>
  match take 13 r with
  | None => None
  | Some (significand, r) =>
      if r =? ")" then Some (sign, exponent, significand) else None
  end end end end end end.

(** The 64-bit pattern the fields of a literal spell. *)
Definition reassemble (lit : string) : option Z :=
  match fields lit with
  | None => None
  | Some (sign, exponent, significand) =>
      match int_of sign 2, int_of exponent 2, int_of significand 16 with
      | Some s, Some e, Some m =>
          Some (s * 2 ^ 63 + e * 2 ^ 52 + m)%Z
      | _, _, _ => None
      end
  end.

(** The literal of a 64-bit pattern: bit 63, then bits 62 to 52, then
    the low 52 bits as thirteen nibbles. *)
Definition literal_of (v : Z) : string :=
  "(fp #b" ++ fixed_digits 2 1 (v / 2 ^ 63)
  ++ " #b" ++ fixed_digits 2 11 (v / 2 ^ 52)
  ++ " #x" ++ fixed_digits 16 13 v ++ ")".

(** The [i]-th single-letter identifier. *)
Definition letter (i : nat) : string := substring i 1 ascii_letters.

(** The sign of a double, and the 63 bits below the sign bit of its
    pattern: biased exponent times [2^52] plus fraction. *)
Definition sign_of (x : float64) : bool :=
  match x with
  | S754_zero s | S754_infinity s | S754_finite s _ _ => s
  | S754_nan => false
  end.

Definition magnitude_bits (x : float64) : Z :=
  match x with
  | S754_zero _ => 0
  | S754_infinity _ => 2047 * 2 ^ 52
  | S754_nan => 2047 * 2 ^ 52 + 2 ^ 51
  | S754_finite _ m e =>
      if (2 ^ 52 <=? Zpos m)%Z
      then (e + 1075) * 2 ^ 52 + (Zpos m - 2 ^ 52)
      else Zpos m
  end%Z.

(** The two kinds of line the generator prints. *)
Definition run_line (var lit : string) : string :=
  "; RUN: grep '" ++ var ++ " -> " ++ lit ++ "' %t2".

Definition fadd_line (var num : string) : string :=
  "%" ++ var ++ " = fadd double 0.0, " ++ num.

(** [float] on the ten literals of [nums], each read as the double it
    denotes; a fixture for the examples. *)
Fixpoint lookup_literal (s : string) (literals : list string)
  (doubles : list float64) : option float64 :=
  match literals, doubles with
  | n :: literals', d :: doubles' =>
      if s =? n then Some d else lookup_literal s literals' doubles'
  | _, _ => None
  end.

Definition float_of_literal (s : string) : option float64 :=
  lookup_literal s nums test_doubles.

End DoubleToSmt.


(* ================================================================== *)
(** ** extract_config.py *)
(* ================================================================== *)

Module ExtractConfig.
Import Py.

(** The text of [s] up to and including its first ['\n'], if it has one. *)
Fixpoint through_newline (s : string) : option string :=
  match s with
  | "" => None
  | String c s' =>
      if Ascii.eqb c "010" then Some nl
      else option_map (String c) (through_newline s')
  end.

(** [config_re.findall(line)] for the pattern of line 6, the marker
    [CONFIG:] and then the rest of the line through its ['\n']: the two
    groups of every match, left to right.  A match starts at a [CONFIG:]
    that has a ['\n'] somewhere after it and runs through that ['\n'];
    the search resumes behind it ([skip] characters further). *)
Fixpoint findall_from (skip : nat) (s : string) : list (string * string) :=
  match s with
  | "" => []
  | String _ s' =>
      match skip with
      | S k => findall_from k s'
      | O =>
          if prefix "CONFIG:" s then
            match through_newline (drop 7 s) with
            | Some tail => ("CONFIG:", tail) :: findall_from (6 + length tail) s'
            | None => findall_from 0 s'
            end
          else findall_from 0 s'
      end
  end.

Definition findall (line : string) : list (string * string) :=
  findall_from 0 line.

(** What one line makes [main] write to standard output. *)
Definition writes_of (line : string) : list string :=
  map (fun m => strip (snd m) ++ nl) (findall line).

(** [main(fin)]: [stdout] collects the [sys.stdout.write] calls made so
    far; the [assert] of line 10 ends the run on a line without its
    terminator. *)
Fixpoint main (fin : list string) (stdout : list string)
  : list string * outcome :=
  match fin with
  | [] => (stdout, Finished)
  | line :: rest =>
      if endswith line nl
      then main rest (stdout ++ writes_of line)%list
      else (stdout, Raised AssertionError 10)
  end.

(** The script run on a file with the given content. *)
Definition run (content : string) : list string * outcome :=
  main (readlines content) [].

End ExtractConfig.

(* ================================================================== *)
(** ** convert_old_config.py *)
(* ================================================================== *)

Module ConvertOldConfig.
Import Py.

(** The last [CONFIG:] of a text without line breaks: the text through
    it, and what follows. *)
Fixpoint last_marker (s : string) : option (string * string) :=
  match s with
  | "" => None
  | String c s' =>
      match last_marker s' with
      | Some (g1, g2) => Some (String c g1, g2)
      | None => if prefix "CONFIG:" s then Some ("CONFIG:", drop 7 s) else None
      end
  end.

(** [config_re.match(line)] for the pattern of line 7, anchored at both
    ends, a greedy group running through [CONFIG:] and a group for the
    rest: groups 1 and 2.  No group crosses a ['\n'] and the closing anchor
    only stands at the end or before a final ['\n'], so the line must hold
    at most one ['\n'], as its last character; the first group is greedy,
    so it runs through the last [CONFIG:]. *)
Definition config_re_match (line : string) : option (string * string) :=
  let (body, rest) := break_at_newline line in
  if (rest =? "") || (rest =? nl) then last_marker body else None.

(** The values [yaml.load] builds, as far as the script can tell them
    apart. *)
Inductive pyval : Type :=
| VNone
| VBool (b : bool)
| VInt (n : Z)
| VStr (s : string)
| VList (items : list pyval)
| VDict (items : list (pyval * pyval)).

Definition is_key (key : string) (k : pyval) : bool :=
  match k with
  | VStr s => s =? key
  | _ => false
  end.

Fixpoint lookup (key : string) (items : list (pyval * pyval)) : option pyval :=
  match items with
  | [] => None
  | (k, v) :: items' => if is_key key k then Some v else lookup key items'
  end.

(** [d[key]] for a string key: [KeyError] on a mapping without it,
    [TypeError] on anything that is not a mapping. *)
Definition getitem (d : pyval) (key : string) : exn + pyval :=
  match d with
  | VDict items =>
      match lookup key items with
      | Some v => inr v
      | None => inl KeyError
      end
  | _ => inl TypeError
  end.

(** [del d[key]]: the mapping without the key. *)
Definition delitem (d : pyval) (key : string) : exn + pyval :=
  match d with
  | VDict items =>
      match lookup key items with
      | Some _ => inr (VDict (filter (fun kv => negb (is_key key (fst kv))) items))
      | None => inl KeyError
      end
  | _ => inl TypeError
  end.

(** [d.items()]; only a mapping has the method. *)
Definition items_of (d : pyval) : exn + list (pyval * pyval) :=
  match d with
  | VDict items => inr items
  | _ => inl AttributeError
  end.

Fixpoint chars_of (s : string) : list pyval :=
  match s with
  | "" => []
  | String c s' => VStr (String c "") :: chars_of s'
  end.

(** What [for x in v] runs over; [None] is the [TypeError] of a value
    that cannot be iterated. *)
Definition iter (v : pyval) : option (list pyval) :=
  match v with
  | VList items => Some items
  | VStr s => Some (chars_of s)
  | VDict items => Some (map fst items)
  | _ => None
  end.

(** The four variables of the reading loop. *)
Record scan_state : Type := mk_scan {
  lines_pre : list string;
  lines_post : list string;
  yaml_src : string;
  prefix_of : option string
}.

Definition scan_init : scan_state := mk_scan [] [] "" None.

(** One round of the loop of lines 16-25. *)
Definition scan_step (st : scan_state) (line : string) : scan_state :=
  match config_re_match line with
  | None =>
      match prefix_of st with
      | None =>
          mk_scan (lines_pre st ++ [line]) (lines_post st) (yaml_src st)
                  (prefix_of st)
      | Some _ =>
          mk_scan (lines_pre st) (lines_post st ++ [line]) (yaml_src st)
                  (prefix_of st)
      end
  | Some (g1, g2) =>
      mk_scan (lines_pre st) (lines_post st) (yaml_src st ++ nl ++ g2)
              (Some g1)
  end.

Definition scan (lines : list string) : scan_state :=
  fold_left scan_step lines scan_init.

(** [out.write(x)] for each [x]. *)
Definition write_all (out : string) (xs : list string) : string :=
  fold_left append xs out.

Section Main.

(** [yaml.load]: the parsed document, or [None] when the parser raises. *)
Variable yaml_load : string -> option pyval.
(** [str(v)], which [%s] applies to its argument. *)
Variable py_str : pyval -> string.

Definition str_of_prefix (prefix : option string) : string :=
  match prefix with
  | Some p => p
  | None => "None"
  end.

(** The loop of lines 37-38 over the remaining items; a failed
    conversion leaves what was written before it. *)
Fixpoint write_items (prefix : option string) (out : string)
  (items : list (pyval * pyval)) : string * bool :=
  match items with
  | [] => (out, true)
  | (k, v) :: items' =>
      match format ("%s config.%s = %s" ++ nl)
                   [str_of_prefix prefix; py_str k; py_str v] with
      | Some text => write_items prefix (out ++ text) items'
      | None => (out, false)
      end
  end.

(** The pieces of [domlist], line 40. *)
Fixpoint domain_lookups (domains : list pyval) : option (list string) :=
  match domains with
  | [] => Some []
  | x :: domains' =>
      match format "globals()['%s']" [py_str x], domain_lookups domains' with
      | Some piece, Some pieces => Some (piece :: pieces)
      | _, _ => None
      end
  end.

(** [main(file_name)] on a file with the given content: the content the
    file is left with, and how the run ends.  Opening the file for
    writing (line 30) empties it. *)
Definition main (content : string) : string * outcome :=
  let st := scan (readlines content) in
  match yaml_load (yaml_src st) with
  | None => (content, Raised YAMLError 28)
  | Some yaml_dict =>
      let out := write_all "" (lines_pre st) in
      match getitem yaml_dict "AbstractDomain" with
      | inl e => (out, Raised e 34)
      | inr domains =>
      match delitem yaml_dict "AbstractDomain" with
      | inl e => (out, Raised e 35)
      | inr yaml_dict =>
      match items_of yaml_dict with
      | inl e => (out, Raised e 37)
      | inr items =>
      match write_items (prefix_of st) out items with
      | (out, false) => (out, Raised TypeError 38)
      | (out, true) =>
      match iter domains with
      | None => (out, Raised TypeError 40)
      | Some xs =>
      match domain_lookups xs with
      | None => (out, Raised TypeError 40)
      | Some pieces =>
      match format ("%s config.AbstractDomain = [%s]" ++ nl)
                   [str_of_prefix (prefix_of st); join ", " pieces] with
      | None => (out, Raised TypeError 41)
      | Some text => (write_all (out ++ text) (lines_post st), Finished)
      end end end end end end end
  end.

End Main.

(** *** Vocabulary for the statements about the rewrite *)

(** The text a list of lines makes up. *)
Definition text_of (lines : list string) : string :=
  fold_right append "" lines.

(** The directive line written for one remaining key. *)
Definition config_line (py_str : pyval -> string) (prefix : string)
  (kv : pyval * pyval) : string :=
  prefix ++ " config." ++ py_str (fst kv) ++ " = " ++ py_str (snd kv) ++ nl.

(** The directive line written for the list of domains. *)
Definition domain_line (py_str : pyval -> string) (prefix : string)
  (domains : list pyval) : string :=
  prefix ++ " config.AbstractDomain = ["
  ++ join ", " (map (fun x => "globals()['" ++ py_str x ++ "']") domains)
  ++ "]" ++ nl.

(** The items left once the domain key is deleted. *)
Definition other_items (items : list (pyval * pyval)) : list (pyval * pyval) :=
  filter (fun kv => negb (is_key "AbstractDomain" (fst kv))) items.

(** A line the pattern matches. *)
Definition is_directive (line : string) : bool :=
  match config_re_match line with
  | Some _ => true
  | None => false
  end.

Definition plain (line : string) : bool := negb (is_directive line).

(** What a line adds to the document: its group 2 behind a line break. *)
Definition payload_of (line : string) : string :=
  match config_re_match line with
  | Some (_, g2) => nl ++ g2
  | None => ""
  end.

(** The document a run of lines adds up to. *)
Definition document_of (lines : list string) : string :=
  text_of (map payload_of lines).

(** *** Fixtures: what PyYAML and [str] give on the documents of the
    examples below *)

Definition doc_two_prefixes : string :=
  nl ++ " AbstractDomain: [Interval]" ++ nl ++ " widening: 3".

Definition doc_no_domain : string := nl ++ " widening: 3".

Definition fixture_load (src : string) : option pyval :=
  if src =? doc_two_prefixes then
    Some (VDict [(VStr "AbstractDomain", VList [VStr "Interval"]);
                 (VStr "widening", VInt 3)])
  else if src =? doc_no_domain then
    Some (VDict [(VStr "widening", VInt 3)])
  else None.

Definition fixture_str (v : pyval) : string :=
  match v with
  | VStr s => s
  | VInt 3 => "3"
  | VNone => "None"
  | _ => "?"
  end.

End ConvertOldConfig.

(* ================================================================== *)
(** ** check.py *)
(* ================================================================== *)

Module Check.
Import Py.

(** The lines of the result file as the loop sees them (lines 10-12):
    read whole, then rid of the ['\n'] at either end. *)
Definition result_lines (content : string) : list string :=
  map (fun elem => strip_chars elem nl) (readlines content).

Section Scan.

(** [termcolor.colored(text, color, attrs=attrs)]; a colour or an
    attribute list left out is [None], respectively empty. *)
Variable colored : string -> option string -> list string -> string.

(** [termcolor.cprint(text, color)] prints the coloured text. *)
Definition cprint (stdout : list string) (text : string)
  (color : option string) : list string :=
  (stdout ++ [colored text color []])%list.

(** Line 6. *)
Definition warning : string := colored "Warning:" (Some "red") ["bold"].

(** The loop of lines 14-34 over the lines still to read: [stdout]
    holds the lines printed so far.  A subscript out of range raises
    [IndexError] where it stands. *)
Fixpoint scan (argv : list string) (lines : list string)
  (stdout : list string) : list string * outcome :=
  match lines with
  | [] => (stdout, Finished)
  | line :: rest =>
      let keyvalue := split line " -> " in
      match nth_error keyvalue 0 with
      | None => (stdout, Raised IndexError 16)
      | Some key =>
      let bval := colored key None ["bold"] in
      match nth_error keyvalue 1 with
      | None => (stdout, Raised IndexError 18)
      | Some value =>
      if value =? "bottom" then
        scan argv rest
             (stdout ++ [warning; (bval ++ " may be mapped to bottom")%string])%list
      else if (2 <? List.length argv)%nat then
        match nth_error argv 2 with
        | None => (stdout, Raised IndexError 23)
        | Some target =>
        if key =? target then
          if value =? "top" then
            (cprint stdout
               (key ++ " is mapped to top. This is sound but maybe unintended")
               (Some "yellow"),
             Exited 0)
          else
            match nth_error argv 3 with
            | None => (stdout, Raised IndexError 28)
            | Some expected =>
            if value =? expected then
              (cprint stdout "Success" (Some "green"), Exited 0)
            else
              (cprint (cprint stdout ("Fail! Wrong value for " ++ key)
                              (Some "red"))
                      ("Value was " ++ value ++ " but should be " ++ expected)
                      None,
               Exited 0)
            end
        else scan argv rest stdout
        end
      else scan argv rest stdout
      end end
  end.

(** The script run with the command line [argv] on a result file with
    the given content. *)
Definition check (argv : list string) (content : string)
  : list string * outcome :=
  match nth_error argv 1 with
  | None => ([], Raised IndexError 8)
  | Some _ => scan argv (result_lines content) []
  end.

End Scan.

(** *** Vocabulary for the statements about the loop *)

(** A line holds the separator. *)
Definition has_separator (line : string) : bool := contains " -> " line.

(** The loop reads [line] and goes on to the next one: the line has a
    value part and either that value is ["bottom"], or no target was
    given, or the identifier is not the target. *)
Definition passes (argv : list string) (line : string) : bool :=
  match split line " -> " with
  | key :: value :: _ =>
      (value =? "bottom")
      || negb (2 <? List.length argv)%nat
      || match nth_error argv 2 with
         | Some target => negb (key =? target)
         | None => false
         end
  | _ => false
  end.

(** The two lines printed for a line whose value is ["bottom"]. *)
Definition bottom_warning
  (colored : string -> option string -> list string -> string)
  (key : string) : list string :=
  [warning colored; colored key None ["bold"] ++ " may be mapped to bottom"].

(** What the run prints when it has found the line of the target. *)
Definition top_notice
  (colored : string -> option string -> list string -> string)
  (key : string) : list string :=
  [colored (key ++ " is mapped to top. This is sound but maybe unintended")
           (Some "yellow") []].

Definition success_notice
  (colored : string -> option string -> list string -> string)
  : list string :=
  [colored "Success" (Some "green") []].

Definition failure_notice
  (colored : string -> option string -> list string -> string)
  (key value expected : string) : list string :=
  [colored ("Fail! Wrong value for " ++ key) (Some "red") [];
   colored ("Value was " ++ value ++ " but should be " ++ expected) None []].

(** The warnings due for a run of lines, in order. *)
Fixpoint bottom_warnings
  (colored : string -> option string -> list string -> string)
  (lines : list string) : list string :=
  match lines with
  | [] => []
  | line :: rest =>
      match split line " -> " with
      | key :: value :: _ =>
          if value =? "bottom"
          then (bottom_warning colored key ++ bottom_warnings colored rest)%list
          else bottom_warnings colored rest
      | _ => bottom_warnings colored rest
      end
  end.

(** The escape sequences [termcolor] wraps a text in when colours are
    switched on. *)
Definition esc : string := String "027"%char "[".

Definition color_code (color : string) : string :=
  if color =? "red" then "31"
  else if color =? "green" then "32"
  else if color =? "yellow" then "33"
  else "37".

Definition attr_code (attr : string) : string :=
  if attr =? "bold" then "1" else "4".

Definition ansi_colored (text : string) (color : option string)
  (attrs : list string) : string :=
  let text :=
    match color with
    | Some c => esc ++ color_code c ++ "m" ++ text
    | None => text
    end in
  fold_left (fun t a => esc ++ attr_code a ++ "m" ++ t) attrs text
  ++ esc ++ "0m".

End Check.

(* ================================================================== *)
(** ** Properties of check.py *)
(* ================================================================== *)

Module CheckFacts.
Import Py Check.

(** [split] always yields at least one piece. *)
Lemma split_from_cons sep skip cur s :
  exists x xs, split_from sep skip cur s = x :: xs.
Proof.
  revert skip cur; induction s as [|c s IH]; intros skip cur; cbn [split_from].
  - eauto.
  - destruct skip as [|k]; [|apply IH].
    destruct (prefix sep (String c s)); [eauto | apply IH].
Qed.

(** It yields a second piece exactly when the separator occurs. *)
Lemma split_second_iff (c0 : ascii) (sep' : string) s cur :
  nth_error (split_from (String c0 sep') 0 cur s) 1 = None
  <-> contains (String c0 sep') s = false.
Proof.
  revert cur; induction s as [|c s IH]; intros cur.
  - simpl. tauto.
  - cbn [split_from contains].
    destruct (prefix (String c0 sep') (String c s)) eqn:E.
    + destruct (split_from_cons (String c0 sep') (length (String c0 sep') - 1) "" s)
        as (x & xs & ->).
      simpl. split; discriminate.
    + rewrite IH. simpl. tauto.
Qed.

Lemma split_value line :
  has_separator line = true ->
  exists key value rest, split line " -> " = key :: value :: rest.
Proof.
  unfold has_separator, split; intros H.
  destruct (split_from " -> " 0 "" line) as [|key [|value rest]] eqn:E.
  - destruct (split_from_cons " -> " 0 "" line) as (x & xs & E'); congruence.
  - assert (N : nth_error (split_from " -> " 0 "" line) 1 = None) by now rewrite E.
    apply split_second_iff in N. congruence.
  - eauto.
Qed.

Lemma split_no_value line :
  has_separator line = false ->
  exists key, split line " -> " = [key].
Proof.
  unfold has_separator, split; intros H.
  apply split_second_iff with (cur := "") in H.
  destruct (split_from_cons " -> " 0 "" line) as (x & xs & E).
  rewrite E in H |- *. destruct xs; [eauto | discriminate].
Qed.

(** What [passes] says of a line when a target was given. *)
Lemma passes_with_target prog file target more line :
  passes (prog :: file :: target :: more) line = true <->
  exists key value rest,
    split line " -> " = key :: value :: rest
    /\ (value = "bottom" \/ key <> target).
Proof.
  unfold passes. split.
  - destruct (split line " -> ") as [|key [|value rest]]; try discriminate.
    intros H. exists key, value, rest. split; [reflexivity|].
    simpl in H. destruct (value =? "bottom") eqn:B.
    + left. now apply String.eqb_eq.
    + right. simpl in H. destruct (key =? target) eqn:K; [discriminate|].
      now apply String.eqb_neq.
  - intros (key & value & rest & -> & [-> | N]).
    + reflexivity.
    + apply String.eqb_neq in N. simpl. rewrite N. now rewrite orb_true_r.
Qed.

(** Without a target every line that has a value part passes. *)
Lemma passes_without_target prog file line :
  passes [prog; file] line = has_separator line.
Proof.
  unfold passes. destruct (has_separator line) eqn:H.
  - destruct (split_value line H) as (k & v & r & ->). simpl.
    now rewrite orb_true_r.
  - destruct (split_no_value line H) as (k & ->). reflexivity.
Qed.

Section ScanFacts.

Variable colored : string -> option string -> list string -> string.

(** Lines that pass only add their warnings; the loop then stands at the
    line after them. *)
Lemma scan_passes argv pre post out :
  Forall (fun p => passes argv p = true) pre ->
  scan colored argv (pre ++ post) out
  = scan colored argv post (out ++ bottom_warnings colored pre).
Proof.
  intros H; revert out; induction H as [|line pre Hl _ IH]; intros out.
  - simpl. now rewrite app_nil_r.
  - unfold passes in Hl. cbn [app scan bottom_warnings].
    remember (nth_error argv 2) as a2 eqn:E2.
    destruct (split line " -> ") as [|key [|value rest]]; try discriminate.
    cbn [nth_error].
    destruct (value =? "bottom").
    + rewrite IH. unfold bottom_warning. now rewrite <- app_assoc.
    + cbn [orb] in Hl.
      destruct (2 <? List.length argv)%nat; [|apply IH].
      cbn [negb orb] in Hl.
      destruct a2 as [target|]; [|discriminate].
      destruct (key =? target); [discriminate | apply IH].
Qed.

(** The outcome [IndexError] of line 18 pins down a line without
    separator that the loop reached. *)
Lemma scan_value_error argv lines out :
  snd (scan colored argv lines out) = Raised IndexError 18 ->
  exists pre line post,
    lines = (pre ++ line :: post)%list
    /\ Forall (fun p => passes argv p = true) pre
    /\ has_separator line = false.
Proof.
  revert out; induction lines as [|line lines IH]; intros out; [discriminate|].
  destruct (has_separator line) eqn:Hs.
  - assert (P : snd (scan colored argv (line :: lines) out) = Raised IndexError 18 ->
                passes argv line = true
                /\ exists out', snd (scan colored argv lines out') = Raised IndexError 18).
    { destruct (split_value line Hs) as (key & value & rest & E).
      unfold passes; cbn [scan]; rewrite E.
      remember (nth_error argv 2) as a2 eqn:E2.
      remember (nth_error argv 3) as a3 eqn:E3.
      cbn [nth_error].
      destruct (value =? "bottom"); [intros X; split; eauto|].
      destruct (2 <? List.length argv)%nat; [|intros X; split; eauto].
      destruct a2 as [target|]; [|discriminate].
      destruct (key =? target); [|intros X; split; eauto].
      destruct (value =? "top"); [discriminate|].
      destruct a3 as [expected|]; [|discriminate].
      destruct (value =? expected); discriminate. }
    intros X. destruct (P X) as (Hp & out' & X').
    destruct (IH out' X') as (pre & l & post & -> & Hpre & Hl).
    exists (line :: pre), l, post. repeat split; auto.
  - intros _. exists [], line, lines. repeat split; auto.
Qed.

Lemma scan_reaches_line_without_separator argv line post out :
  has_separator line = false ->
  scan colored argv (line :: post) out = (out, Raised IndexError 18).
Proof.
  intros H. destruct (split_no_value line H) as (key & E).
  cbn [scan]. now rewrite E.
Qed.

End ScanFacts.
(** Stripping line breaks off a line neither adds nor removes an
    occurrence of a text that holds none. *)
Section Strip.

Variable p : ascii -> bool.

(** No character of [s] is in the set [p]. *)
Let none_of (s : string) : Prop := chars_all (fun c => p c = false) s.

Lemma rstrip_keeps_head c s :
  p c = false -> rstrip p (String c s) = String c (rstrip p s).
Proof.
  intros H. cbn [rstrip]. rewrite H. now destruct (rstrip p s).
Qed.

Lemma rstrip_head c s :
  rstrip p (String c s) = "" \/ rstrip p (String c s) = String c (rstrip p s).
Proof.
  cbn [rstrip]. destruct (rstrip p s); [destruct (p c)|]; auto.
Qed.

Lemma prefix_rstrip sep s :
  none_of sep -> prefix sep (rstrip p s) = prefix sep s.
Proof.
  revert s; induction sep as [|c0 sep IH]; intros s H.
  - destruct (rstrip p s); destruct s; reflexivity.
  - destruct H as [H0 H]. destruct s as [|c s]; [reflexivity|].
    cbn [prefix]. destruct (ascii_dec c0 c) as [->|N].
    + rewrite rstrip_keeps_head by assumption. cbn [prefix].
      destruct (ascii_dec c c); [now apply IH | congruence].
    + destruct (rstrip_head c s) as [-> | ->]; [reflexivity|].
      cbn [prefix]. now destruct (ascii_dec c0 c).
Qed.

Lemma contains_rstrip c0 sep s :
  none_of (String c0 sep) ->
  contains (String c0 sep) (rstrip p s) = contains (String c0 sep) s.
Proof.
  intros H; induction s as [|c s IH]; [reflexivity|].
  cbn [contains]. rewrite <- (prefix_rstrip _ (String c s) H), <- IH.
  destruct (rstrip_head c s) as [E | E]; rewrite E.
  - destruct (rstrip p s) eqn:R; [reflexivity|].
    cbn [rstrip] in E. rewrite R in E. discriminate.
  - reflexivity.
Qed.

Lemma contains_lstrip c0 sep s :
  none_of (String c0 sep) ->
  contains (String c0 sep) (lstrip p s) = contains (String c0 sep) s.
Proof.
  intros [H0 _]; induction s as [|c s IH]; [reflexivity|].
  cbn [lstrip]. destruct (p c) eqn:Pc; [|reflexivity].
  rewrite IH. cbn [contains prefix].
  destruct (ascii_dec c0 c) as [->|]; [congruence | reflexivity].
Qed.

Lemma contains_strip_with c0 sep s :
  none_of (String c0 sep) ->
  contains (String c0 sep) (strip_with p s) = contains (String c0 sep) s.
Proof.
  intros H. unfold strip_with. now rewrite contains_rstrip, contains_lstrip.
Qed.

End Strip.

Lemma has_separator_strip line :
  has_separator (strip_chars line nl) = has_separator line.
Proof.
  unfold has_separator, strip_chars. apply contains_strip_with.
  simpl. tauto.
Qed.
(** With a file name and, if any, both a target and an expected value
    on the command line, a file whose lines all hold the separator is
    read without an exception. *)
Lemma scan_status_zero colored argv lines out :
  (List.length argv <= 2 \/ 4 <= List.length argv)%nat ->
  Forall (fun l => has_separator l = true) lines ->
  exit_status (snd (scan colored argv lines out)) = 0%Z.
Proof.
  intros Hargv H; revert out; induction H as [|line lines Hl _ IH]; intros out.
  - reflexivity.
  - destruct (split_value line Hl) as (key & value & rest & E).
    cbn [scan]; rewrite E.
    remember (nth_error argv 2) as a2 eqn:E2.
    remember (nth_error argv 3) as a3 eqn:E3.
    cbn [nth_error].
    destruct (value =? "bottom"); [apply IH|].
    destruct (2 <? List.length argv)%nat eqn:L; [|apply IH].
    apply Nat.ltb_lt in L.
    assert (L4 : (3 < List.length argv)%nat) by lia.
    assert (L3 : (2 < List.length argv)%nat) by lia.
    apply nth_error_Some in L4, L3.
    destruct a2 as [target|]; [|congruence].
    destruct (key =? target); [|apply IH].
    destruct (value =? "top"); [reflexivity|].
    destruct a3 as [expected|]; [|congruence].
    destruct (value =? expected); reflexivity.
Qed.

(** C5.  When a target and an expected value are given, the first line
    whose identifier is the target and whose value is not ["bottom"]
    ends the run with [sys.exit(0)]: after the warnings of the lines
    before it, the run prints the top notice if the value is ["top"]
    (whatever was expected), [Success] if the value is the expected
    one, and otherwise the two failure lines naming the identifier, the
    value found and the value expected.  Nothing of the lines behind it
    enters the result. *)
Theorem check_first_target_line_decides :
  forall colored prog file target expected more content
         pre line post key value rest,
  let argv := prog :: file :: target :: expected :: more in
  result_lines content = (pre ++ line :: post)%list ->
  Forall (fun p => passes argv p = true) pre ->
  split line " -> " = key :: value :: rest ->
  key = target ->
  value <> "bottom" ->
  check colored argv content =
  ((bottom_warnings colored pre ++
    if value =? "top" then top_notice colored key
    else if value =? expected then success_notice colored
    else failure_notice colored key value expected)%list,
   Exited 0).
Proof.
  intros colored prog file target expected more content
         pre line post key value rest argv Hlines Hpre Hsplit Hkey Hval.
  unfold check. cbn [argv nth_error]. rewrite Hlines.
  fold argv. rewrite (scan_passes colored argv pre (line :: post) [] Hpre).
  cbn [scan app]. rewrite Hsplit. cbn [nth_error argv List.length Nat.ltb Nat.leb].
  apply String.eqb_neq in Hval. rewrite Hval.
  subst key. rewrite String.eqb_refl.
  unfold cprint.
  destruct (value =? "top"); [reflexivity|].
  destruct (value =? expected); [reflexivity|].
  now rewrite <- app_assoc.
Qed.

(** One run of each kind: a warning for an earlier ["bottom"] line, then
    the failure lines at the first line of the target; the later line of
    the same identifier plays no part. *)
Lemma check_first_target_line_decides_witness :
  check ansi_colored ["check.py"; "out.txt"; "x"; "6"]
        ("y -> bottom" ++ nl ++ "x -> 5" ++ nl ++ "x -> 6" ++ nl)
  = ((bottom_warning ansi_colored "y" ++
      failure_notice ansi_colored "x" "5" "6")%list, Exited 0).
Proof.
  apply (check_first_target_line_decides ansi_colored
           "check.py" "out.txt" "x" "6" []
           ("y -> bottom" ++ nl ++ "x -> 5" ++ nl ++ "x -> 6" ++ nl)
           ["y -> bottom"] "x -> 5" ["x -> 6"] "x" "5" []).
  - reflexivity.
  - repeat constructor.
  - reflexivity.
  - reflexivity.
  - discriminate.
Defined.

(** C6, as stated, fails: once the target line has ended the run, a
    later line whose value is ["bottom"] is never read, and no warning
    is printed for it. *)
Lemma bottom_line_after_target_not_warned :
  result_lines ("y -> 5" ++ nl ++ "x -> bottom" ++ nl) = ["y -> 5"; "x -> bottom"]
  /\ check ansi_colored ["check.py"; "out.txt"; "y"; "5"]
           ("y -> 5" ++ nl ++ "x -> bottom" ++ nl)
     = (success_notice ansi_colored, Exited 0)
  /\ ~ In (ansi_colored "x" None ["bold"] ++ " may be mapped to bottom")
          (fst (check ansi_colored ["check.py"; "out.txt"; "y"; "5"]
                      ("y -> 5" ++ nl ++ "x -> bottom" ++ nl))).
Proof.
  split; [reflexivity|]. split; [reflexivity|].
  vm_compute. intros [H|[]]. discriminate H.
Qed.

(** C6, amended.  Whatever the command line (a file name, with or
    without target and expected value), a line whose value is
    ["bottom"] and which the loop reaches, every line before it having
    passed, gets its warning naming the identifier, also when that
    identifier is the target; the line does not end the run, which goes
    on with the next line. *)
Theorem check_warns_on_reached_bottom_line :
  forall colored argv content pre line post key rest,
  (2 <= List.length argv)%nat ->
  result_lines content = (pre ++ line :: post)%list ->
  Forall (fun p => passes argv p = true) pre ->
  split line " -> " = key :: "bottom" :: rest ->
  check colored argv content =
  scan colored argv post
       (bottom_warnings colored pre ++ bottom_warning colored key)%list.
Proof.
  intros colored argv content pre line post key rest Hargv Hlines Hpre Hsplit.
  unfold check.
  destruct (nth_error argv 1) eqn:E.
  - rewrite Hlines, (scan_passes colored argv pre (line :: post) [] Hpre).
    cbn [scan app]. rewrite Hsplit. reflexivity.
  - apply nth_error_None in E. lia.
Qed.

Lemma check_warns_on_reached_bottom_line_witness :
  check ansi_colored ["check.py"; "out.txt"; "x"; "5"]
        ("y -> 1" ++ nl ++ "x -> bottom" ++ nl ++ "x -> 5" ++ nl)
  = scan ansi_colored ["check.py"; "out.txt"; "x"; "5"] ["x -> 5"]
         (bottom_warnings ansi_colored ["y -> 1"] ++ bottom_warning ansi_colored "x")%list.
Proof.
  apply (check_warns_on_reached_bottom_line ansi_colored
           ["check.py"; "out.txt"; "x"; "5"]
           ("y -> 1" ++ nl ++ "x -> bottom" ++ nl ++ "x -> 5" ++ nl)
           ["y -> 1"] "x -> bottom" ["x -> 5"] "x" []).
  - simpl; lia.
  - reflexivity.
  - repeat constructor.
  - reflexivity.
Defined.

(** C7.  On a result file whose lines all hold the separator, with
    either no target or both a target and an expected value given, the
    run ends with status zero whatever it found. *)
Theorem check_exit_status_zero :
  forall colored argv content,
  (List.length argv = 2 \/ 4 <= List.length argv)%nat ->
  Forall (fun l => has_separator l = true) (readlines content) ->
  exit_status (snd (check colored argv content)) = 0%Z.
Proof.
  intros colored argv content Hargv Hlines. unfold check.
  destruct (nth_error argv 1) eqn:E.
  - apply scan_status_zero; [lia|].
    unfold result_lines. apply Forall_map.
    eapply Forall_impl; [|exact Hlines].
    intros l Hl. now rewrite has_separator_strip.
  - apply nth_error_None in E. lia.
Qed.

Lemma check_exit_status_zero_witness :
  exit_status (snd (check ansi_colored ["check.py"; "out.txt"; "x"; "6"]
                          ("y -> bottom" ++ nl ++ "x -> 5" ++ nl))) = 0%Z.
Proof.
  apply (check_exit_status_zero ansi_colored ["check.py"; "out.txt"; "x"; "6"]
           ("y -> bottom" ++ nl ++ "x -> 5" ++ nl)).
  - right; simpl; lia.
  - repeat constructor.
Defined.

(** C10.  The run dies of the [IndexError] of line 18, with a non-zero
    status, exactly when the loop reaches a line without the separator,
    every line before it having passed; an empty line is such a line.
    So it never does on a file whose lines read by the loop all hold
    the separator. *)
Theorem check_aborts_iff_line_without_separator :
  forall colored argv content,
  (2 <= List.length argv)%nat ->
  ((exists pre line post,
       result_lines content = (pre ++ line :: post)%list
       /\ Forall (fun p => passes argv p = true) pre
       /\ has_separator line = false)
   <-> snd (check colored argv content) = Raised IndexError 18)
  /\ (snd (check colored argv content) = Raised IndexError 18 ->
      exit_status (snd (check colored argv content)) <> 0%Z)
  /\ has_separator "" = false.
Proof.
  intros colored argv content Hargv.
  assert (E : check colored argv content
              = scan colored argv (result_lines content) []).
  { unfold check. destruct (nth_error argv 1) eqn:E; [reflexivity|].
    apply nth_error_None in E. lia. }
  rewrite E. split; [split|split].
  - intros (pre & line & post & -> & Hpre & Hline).
    rewrite (scan_passes colored argv pre (line :: post) [] Hpre).
    now rewrite scan_reaches_line_without_separator.
  - apply scan_value_error.
  - intros ->. discriminate.
  - reflexivity.
Qed.

Lemma check_aborts_iff_line_without_separator_witness :
  snd (check ansi_colored ["check.py"; "out.txt"]
             ("x -> 5" ++ nl ++ nl ++ "y -> 6" ++ nl))
  = Raised IndexError 18.
Proof.
  apply (check_aborts_iff_line_without_separator ansi_colored
           ["check.py"; "out.txt"] ("x -> 5" ++ nl ++ nl ++ "y -> 6" ++ nl)).
  - simpl; lia.
  - exists ["x -> 5"], "", ["y -> 6"]. repeat split. repeat constructor.
Defined.

End CheckFacts.

(* ================================================================== *)
(** ** Properties of extract_config.py *)
(* ================================================================== *)

Module ExtractConfigFacts.
Import Py ExtractConfig.

(** Lines that end in their terminator are worked off one after the
    other, each adding its payloads to the output. *)
Lemma main_terminated pre rest out :
  Forall (fun l => endswith l nl = true) pre ->
  main (pre ++ rest) out = main rest (out ++ flat_map writes_of pre).
Proof.
  intros H; revert out; induction H as [|line pre Hl _ IH]; intros out.
  - simpl. now rewrite app_nil_r.
  - cbn [app main flat_map]. rewrite Hl, IH. now rewrite <- app_assoc.
Qed.

(** A list with an unterminated line has a first one. *)
Lemma first_unterminated fin :
  Exists (fun l => endswith l nl = false) fin ->
  exists pre line post,
    fin = (pre ++ line :: post)%list
    /\ Forall (fun l => endswith l nl = true) pre
    /\ endswith line nl = false.
Proof.
  induction fin as [|l fin IH]; intros H; [inversion H|].
  destruct (endswith l nl) eqn:E.
  - inversion H as [? ? Hl | ? ? Hfin]; subst; [congruence|].
    destruct (IH Hfin) as (pre & line & post & -> & Hpre & Hline).
    exists (l :: pre), line, post. repeat split; auto.
  - exists [], l, fin. repeat split; auto.
Qed.

(** The example of the specification: one directive between two other
    lines. *)
Example main_one_directive :
  main ["a" ++ nl; "// CONFIG: x=1" ++ nl; "b" ++ nl] []
  = (["x=1" ++ nl], Finished).
Proof. reflexivity. Qed.

(** C3, as stated, fails: the payload of a line that precedes the
    unterminated one is written before the assertion stops the run. *)
Lemma main_partial_output :
  main ["// CONFIG: x=1" ++ nl; "b"] [] = (["x=1" ++ nl], Raised AssertionError 10)
  /\ run ("// CONFIG: x=1" ++ nl ++ "b") = (["x=1" ++ nl], Raised AssertionError 10)
  /\ fst (main ["// CONFIG: x=1" ++ nl; "b"] []) <> [].
Proof.
  repeat split; try reflexivity. discriminate.
Qed.

(** C3, amended.  If some input line lacks its terminator, the run dies
    of the assertion of line 10, with a non-zero status, at the first
    such line, whatever the lines hold; what it has written by then are
    the payloads of the lines before that one, and nothing for that line
    or any line behind it. *)
Theorem main_fails_at_first_unterminated_line :
  forall fin,
  Exists (fun l => endswith l nl = false) fin ->
  exists pre line post,
    fin = (pre ++ line :: post)%list
    /\ Forall (fun l => endswith l nl = true) pre
    /\ endswith line nl = false
    /\ main fin [] = (flat_map writes_of pre, Raised AssertionError 10)
    /\ exit_status (snd (main fin [])) <> 0%Z.
Proof.
  intros fin H.
  destruct (first_unterminated fin H) as (pre & line & post & -> & Hpre & Hline).
  exists pre, line, post.
  assert (E : main (pre ++ line :: post) []
              = (flat_map writes_of pre, Raised AssertionError 10)).
  { rewrite (main_terminated pre (line :: post) [] Hpre).
    cbn [main app]. now rewrite Hline. }
  repeat split; auto. rewrite E. discriminate.
Qed.

Lemma main_fails_at_first_unterminated_line_witness :
  exists pre line post,
    ["a" ++ nl; "// CONFIG: x=1" ++ nl; "// CONFIG: y=2"; "// CONFIG: z=3" ++ nl]
    = (pre ++ line :: post)%list
    /\ Forall (fun l => endswith l nl = true) pre
    /\ endswith line nl = false
    /\ main ["a" ++ nl; "// CONFIG: x=1" ++ nl; "// CONFIG: y=2"; "// CONFIG: z=3" ++ nl] []
       = (flat_map writes_of pre, Raised AssertionError 10)
    /\ exit_status
         (snd (main ["a" ++ nl; "// CONFIG: x=1" ++ nl; "// CONFIG: y=2"; "// CONFIG: z=3" ++ nl] []))
       <> 0%Z.
Proof.
  apply (main_fails_at_first_unterminated_line
           ["a" ++ nl; "// CONFIG: x=1" ++ nl; "// CONFIG: y=2"; "// CONFIG: z=3" ++ nl]).
  apply Exists_cons_tl, Exists_cons_tl, Exists_cons_hd. reflexivity.
Defined.

End ExtractConfigFacts.

(* ================================================================== *)
(** ** Properties of convert_old_config.py *)
(* ================================================================== *)

Module ConvertOldConfigFacts.
Import Py ConvertOldConfig.

Lemma append_assoc (a b c : string) : (a ++ b) ++ c = a ++ b ++ c.
Proof. induction a as [|x a IH]; simpl; [reflexivity | now rewrite IH]. Qed.

Lemma append_nil_r (a : string) : a ++ "" = a.
Proof. induction a as [|x a IH]; simpl; [reflexivity | now rewrite IH]. Qed.

Lemma text_of_app xs ys : text_of (xs ++ ys) = text_of xs ++ text_of ys.
Proof.
  induction xs as [|x xs IH]; simpl; [reflexivity|].
  now rewrite IH, append_assoc.
Qed.

Lemma write_all_text out xs : write_all out xs = out ++ text_of xs.
Proof.
  unfold write_all; revert out; induction xs as [|x xs IH]; intros out; simpl.
  - now rewrite append_nil_r.
  - now rewrite IH, append_assoc.
Qed.

(** *** The reading loop *)

Lemma scan_step_keeps_prefix st line g1 :
  config_re_match line = None ->
  prefix_of st = Some g1 ->
  prefix_of (scan_step st line) = Some g1.
Proof.
  intros Hm Hp. unfold scan_step. rewrite Hm, Hp. reflexivity.
Qed.

Lemma fold_keeps_prefix lines st g1 :
  Forall (fun x => config_re_match x = None) lines ->
  prefix_of st = Some g1 ->
  prefix_of (fold_left scan_step lines st) = Some g1.
Proof.
  intros H; revert st; induction H as [|l lines Hl _ IH]; intros st Hp.
  - exact Hp.
  - simpl. apply IH. now apply scan_step_keeps_prefix.
Qed.

(** The prefix the loop ends with is group 1 of the last line that
    matches. *)
Lemma scan_prefix_last before line after g1 g2 :
  config_re_match line = Some (g1, g2) ->
  Forall (fun x => config_re_match x = None) after ->
  prefix_of (scan (before ++ line :: after)) = Some g1.
Proof.
  intros Hm Hafter. unfold scan. rewrite fold_left_app. cbn [fold_left].
  apply fold_keeps_prefix; [exact Hafter|].
  unfold scan_step. now rewrite Hm.
Qed.

(** *** The writing half *)

Section WriteFacts.

Variable py_str : pyval -> string.

Lemma write_items_text prefix out items :
  write_items py_str (Some prefix) out items
  = (out ++ text_of (map (config_line py_str prefix) items), true).
Proof.
  revert out; induction items as [|[k v] items IH]; intros out.
  - simpl. now rewrite append_nil_r.
  - cbn [write_items map text_of fold_right].
    change (format ("%s config.%s = %s" ++ nl)
                   [str_of_prefix (Some prefix); py_str k; py_str v])
      with (Some (config_line py_str prefix (k, v))).
    cbv beta iota. rewrite IH. now rewrite append_assoc.
Qed.

Lemma domain_lookups_map xs :
  domain_lookups py_str xs
  = Some (map (fun x => "globals()['" ++ py_str x ++ "']") xs).
Proof.
  induction xs as [|x xs IH]; [reflexivity|].
  cbn [domain_lookups map]. rewrite IH. reflexivity.
Qed.

End WriteFacts.
(** *** The pattern of line 7 *)

Lemma prefix_drop p s :
  prefix p s = true -> s = p ++ drop (length p) s.
Proof.
  revert s; induction p as [|a p IH]; intros s H; [reflexivity|].
  destruct s as [|c s]; [discriminate|].
  cbn [prefix] in H. destruct (ascii_dec a c) as [->|]; [|discriminate].
  cbn [length drop append]. now rewrite <- IH.
Qed.

Lemma prefix_append p s : prefix p (p ++ s) = true.
Proof.
  induction p as [|a p IH]; [now destruct s|].
  cbn [append prefix]. now destruct (ascii_dec a a).
Qed.

Lemma last_marker_none_iff s :
  last_marker s = None <-> contains "CONFIG:" s = false.
Proof.
  induction s as [|c s IH]; [simpl; tauto|].
  cbn [last_marker contains].
  destruct (last_marker s) as [[g1 g2]|].
  - destruct IH as [_ IH]. split; [discriminate|].
    intros H. apply orb_false_elim in H. destruct H as [_ H].
    specialize (IH H). discriminate.
  - destruct IH as [IH _]. rewrite (IH eq_refl), orb_false_r.
    destruct (prefix "CONFIG:" (String c s)); split; congruence.
Qed.

Lemma last_marker_none_drop n s :
  last_marker s = None -> last_marker (drop n s) = None.
Proof.
  revert s; induction n as [|n IH]; intros s H; [now destruct s|].
  destruct s as [|c s]; [reflexivity|].
  cbn [drop]. apply IH. cbn [last_marker] in H.
  destruct (last_marker s) as [[g1 g2]|]; [discriminate | reflexivity].
Qed.

(** Group 1 ends in the marker, the two groups make up the text, and
    group 2 holds no further marker. *)
Lemma last_marker_groups s g1 g2 :
  last_marker s = Some (g1, g2) ->
  (exists t, g1 = t ++ "CONFIG:")
  /\ s = g1 ++ g2
  /\ contains "CONFIG:" g2 = false.
Proof.
  revert g1 g2; induction s as [|c s IH]; intros g1 g2 H; [discriminate|].
  cbn [last_marker] in H.
  destruct (last_marker s) as [[a b]|] eqn:E.
  - injection H as <- <-.
    destruct (IH a b eq_refl) as ((t & ->) & -> & Hb).
    repeat split; [now exists (String c t) | exact Hb].
  - destruct (prefix "CONFIG:" (String c s)) eqn:P; [|discriminate].
    injection H as <- <-. repeat split.
    + now exists "".
    + exact (prefix_drop "CONFIG:" (String c s) P).
    + apply last_marker_none_iff.
      exact (last_marker_none_drop 6 s E).
Qed.

Lemma break_at_newline_app s body rest :
  break_at_newline s = (body, rest) -> s = body ++ rest.
Proof.
  revert body rest; induction s as [|c s IH]; intros body rest H.
  - now injection H as <- <-.
  - cbn [break_at_newline] in H.
    destruct (Ascii.eqb c "010"); [now injection H as <- <-|].
    destruct (break_at_newline s) as [b r].
    injection H as <- <-. cbn [append]. now rewrite <- (IH b r).
Qed.

(** What a match of the pattern says about the line. *)
Lemma config_re_match_groups line g1 g2 :
  config_re_match line = Some (g1, g2) ->
  (exists t, g1 = t ++ "CONFIG:")
  /\ (line = g1 ++ g2 \/ line = g1 ++ g2 ++ nl)
  /\ contains "CONFIG:" g2 = false.
Proof.
  unfold config_re_match.
  destruct (break_at_newline line) as [body rest] eqn:B.
  apply break_at_newline_app in B.
  destruct ((rest =? "") || (rest =? nl)) eqn:R; [|discriminate].
  intros H. destruct (last_marker_groups body g1 g2 H) as (Ht & -> & Hg).
  repeat split; auto.
  apply orb_true_iff in R. destruct R as [R | R]; apply String.eqb_eq in R; subst.
  - left. now rewrite append_nil_r.
  - right. now rewrite append_assoc.
Qed.

(** *** The run as a whole *)

Section MainFacts.

Variable yaml_load : string -> option pyval.
Variable py_str : pyval -> string.


(** A mapping with an iterable domain list is rewritten in full. *)
Lemma main_finishes content items domains xs prefix :
  yaml_load (yaml_src (scan (readlines content))) = Some (VDict items) ->
  lookup "AbstractDomain" items = Some domains ->
  iter domains = Some xs ->
  prefix_of (scan (readlines content)) = Some prefix ->
  main yaml_load py_str content
  = (text_of (lines_pre (scan (readlines content))
              ++ map (config_line py_str prefix) (other_items items)
              ++ [domain_line py_str prefix xs]
              ++ lines_post (scan (readlines content))),
     Finished).
Proof.
  intros Hload Hdom Hiter Hprefix. unfold main.
  rewrite Hload. cbn [getitem delitem]. rewrite Hdom. cbn [items_of].
  rewrite Hprefix.
  fold (other_items items).
  rewrite write_items_text, Hiter, domain_lookups_map.
  change (format ("%s config.AbstractDomain = [%s]" ++ nl)
            [str_of_prefix (Some prefix);
             join ", " (map (fun x => "globals()['" ++ py_str x ++ "']") xs)])
    with (Some (domain_line py_str prefix xs)).
  cbv beta iota.
  rewrite !write_all_text, !text_of_app. cbn [text_of fold_right append].
  now rewrite append_nil_r, !append_assoc.
Qed.

End MainFacts.


(** C1, as stated, fails: the second directive line opens with another
    comment token, and the lines written carry that second prefix, the
    marker included, not the text before the marker of the first one. *)
Lemma main_prefix_not_of_first_match :
  config_re_match ("// CONFIG: AbstractDomain: [Interval]" ++ nl)
  = Some ("// CONFIG:", " AbstractDomain: [Interval]")
  /\ main fixture_load fixture_str
          ("// CONFIG: AbstractDomain: [Interval]" ++ nl
           ++ "# CONFIG: widening: 3" ++ nl)
     = ("# CONFIG: config.widening = 3" ++ nl
        ++ "# CONFIG: config.AbstractDomain = [globals()['Interval']]" ++ nl,
        Finished)
  /\ prefix "// " ("# CONFIG: config.widening = 3" ++ nl) = false.
Proof. repeat split. Qed.

(** C1, amended.  The prefix of every directive line the rewrite emits
    is group 1 of the last line that matches the pattern, however many
    lines match before it: the text of that line up to and including
    its last marker. *)
Theorem main_prefix_of_last_match :
  forall yaml_load py_str content before line after g1 g2 items domains xs,
  readlines content = (before ++ line :: after)%list ->
  config_re_match line = Some (g1, g2) ->
  Forall (fun x => config_re_match x = None) after ->
  yaml_load (yaml_src (scan (readlines content))) = Some (VDict items) ->
  lookup "AbstractDomain" items = Some domains ->
  iter domains = Some xs ->
  let emitted :=
    (map (config_line py_str g1) (other_items items)
     ++ [domain_line py_str g1 xs])%list in
  main yaml_load py_str content
  = (text_of (lines_pre (scan (readlines content))
              ++ emitted
              ++ lines_post (scan (readlines content))),
     Finished)
  /\ Forall (fun l => prefix (g1 ++ " config.") l = true) emitted
  /\ (exists t, g1 = t ++ "CONFIG:")
  /\ (line = g1 ++ g2 \/ line = g1 ++ g2 ++ nl)
  /\ contains "CONFIG:" g2 = false.
Proof.
  intros yaml_load py_str content before line after g1 g2 items domains xs
         Hlines Hmatch Hafter Hload Hdom Hiter emitted.
  assert (Hprefix : prefix_of (scan (readlines content)) = Some g1).
  { rewrite Hlines. now apply scan_prefix_last with (g2 := g2). }
  split; [|split].
  - rewrite (main_finishes yaml_load py_str content items domains xs g1
               Hload Hdom Hiter Hprefix).
    unfold emitted. now rewrite <- !app_assoc.
  - unfold emitted. apply Forall_app. split.
    + apply Forall_map, Forall_forall. intros kv _. unfold config_line.
      rewrite <- (append_assoc g1 " config."). apply prefix_append.
    + constructor; [|constructor]. unfold domain_line.
      change (" config.AbstractDomain = [" ++ ?x)
        with (" config." ++ "AbstractDomain = [" ++ x).
      rewrite <- (append_assoc g1 " config."). apply prefix_append.
  - now apply config_re_match_groups.
Qed.

Lemma main_prefix_of_last_match_witness :
  main fixture_load fixture_str
       ("int a;" ++ nl ++ "// CONFIG: AbstractDomain: [Interval]" ++ nl
        ++ "int b;" ++ nl ++ "# CONFIG: widening: 3" ++ nl ++ "int c;" ++ nl)
  = ("int a;" ++ nl
     ++ "# CONFIG: config.widening = 3" ++ nl
     ++ "# CONFIG: config.AbstractDomain = [globals()['Interval']]" ++ nl
     ++ "int b;" ++ nl ++ "int c;" ++ nl,
     Finished).
Proof.
  apply (main_prefix_of_last_match fixture_load fixture_str
           ("int a;" ++ nl ++ "// CONFIG: AbstractDomain: [Interval]" ++ nl
            ++ "int b;" ++ nl ++ "# CONFIG: widening: 3" ++ nl ++ "int c;" ++ nl)
           ["int a;" ++ nl; "// CONFIG: AbstractDomain: [Interval]" ++ nl;
            "int b;" ++ nl]
           ("# CONFIG: widening: 3" ++ nl)
           ["int c;" ++ nl]
           "# CONFIG:" " widening: 3"
           [(VStr "AbstractDomain", VList [VStr "Interval"]);
            (VStr "widening", VInt 3)]
           (VList [VStr "Interval"]) [VStr "Interval"]).
  - reflexivity.
  - reflexivity.
  - repeat constructor.
  - reflexivity.
  - reflexivity.
  - reflexivity.
Defined.

(** C2 at work: a mapping without the domain key makes line 34 raise
    [KeyError] after line 30 has emptied the file and the loop of line
    31 has written the leading lines; the file keeps those alone. *)
Theorem main_missing_domain_key_truncates :
  forall yaml_load py_str content items,
  yaml_load (yaml_src (scan (readlines content))) = Some (VDict items) ->
  lookup "AbstractDomain" items = None ->
  main yaml_load py_str content
  = (text_of (lines_pre (scan (readlines content))), Raised KeyError 34).
Proof.
  intros yaml_load py_str content items Hload Hdom. unfold main.
  rewrite Hload. cbn [getitem]. rewrite Hdom.
  now rewrite write_all_text.
Qed.

Lemma main_missing_domain_key_truncates_witness :
  main fixture_load fixture_str
       ("int a;" ++ nl ++ "// CONFIG: widening: 3" ++ nl ++ "int b;" ++ nl)
  = ("int a;" ++ nl, Raised KeyError 34).
Proof.
  apply (main_missing_domain_key_truncates fixture_load fixture_str
           ("int a;" ++ nl ++ "// CONFIG: widening: 3" ++ nl ++ "int b;" ++ nl)
           [(VStr "widening", VInt 3)]).
  - reflexivity.
  - reflexivity.
Defined.

End ConvertOldConfigFacts.

(* ================================================================== *)
(** ** Properties of double_to_smt.py *)
(* ================================================================== *)

Module DoubleToSmtFacts.
Import Py DoubleToSmt.

(** *** Texts *)

Lemma length_app (a b : string) : length (a ++ b) = length a + length b.
Proof. induction a as [|c a IH]; simpl; [reflexivity | now rewrite IH]. Qed.

Lemma length_zeros k : length (zeros k) = k.
Proof. induction k as [|k IH]; simpl; [reflexivity | now rewrite IH]. Qed.

Lemma app_empty_r (s : string) : s ++ "" = s.
Proof. induction s as [|c s IH]; simpl; [reflexivity | now rewrite IH]. Qed.

Lemma app_assoc_s (a b c : string) : (a ++ b) ++ c = a ++ b ++ c.
Proof. induction a as [|x a IH]; simpl; [reflexivity | now rewrite IH]. Qed.

Lemma zeros_snoc k : zeros k ++ "0" = zeros (S k).
Proof. induction k as [|k IH]; simpl; [reflexivity | now rewrite IH]. Qed.

Lemma substring_all s : substring 0 (length s) s = s.
Proof. induction s as [|c s IH]; simpl; [reflexivity | now rewrite IH]. Qed.

Lemma substring_head a s : substring 0 (length a) (a ++ s) = a.
Proof.
  induction a as [|c a IH]; simpl; [now destruct s | now rewrite IH].
Qed.

Lemma substring_skip a s n m :
  substring (length a + n) m (a ++ s) = substring n m s.
Proof. induction a as [|c a IH]; simpl; [reflexivity | exact IH]. Qed.

Lemma drop_app a s : drop (length a) (a ++ s) = s.
Proof. induction a as [|c a IH]; simpl; [now destruct s | exact IH]. Qed.

Lemma prefix_app p s : prefix p (p ++ s) = true.
Proof.
  induction p as [|a p IH]; [now destruct s|].
  cbn [append prefix]. now destruct (ascii_dec a a).
Qed.

Lemma after_prefix_app p s : after_prefix p (p ++ s) = Some s.
Proof. unfold after_prefix. now rewrite prefix_app, drop_app. Qed.

Lemma take_app a s : take (length a) (a ++ s) = Some (a, s).
Proof.
  unfold take. rewrite length_app, substring_head, drop_app.
  assert (E : (length a <=? length a + length s)%nat = true)
    by (apply Nat.leb_le; lia).
  now rewrite E.
Qed.

(** *** Digits *)

Section Digits.

Variable base : Z.
Hypothesis base_range : (2 <= base <= 16)%Z.

Lemma length_fixed_digits w n : length (fixed_digits base w n) = w.
Proof.
  revert n; induction w as [|w IH]; intros n; simpl; [reflexivity|].
  rewrite length_app, IH. simpl. lia.
Qed.

Lemma fixed_digits_zero w : fixed_digits base w 0 = zeros w.
Proof.
  induction w as [|w IH]; [reflexivity|].
  cbn [fixed_digits]. rewrite Z.div_0_l, Z.mod_0_l, IH by lia.
  apply zeros_snoc.
Qed.

(** [format] with a width that the number fits pads to exactly that
    width. *)
Lemma digits_of_padded w n fuel :
  (0 <= n < base ^ Z.of_nat (S w))%Z ->
  (n < 2 ^ Z.of_nat (S fuel))%Z ->
  length (digits_of base (S fuel) n) <= S w
  /\ zeros (S w - length (digits_of base (S fuel) n))
     ++ digits_of base (S fuel) n
     = fixed_digits base (S w) n.
Proof.
  revert n fuel; induction w as [|w IH]; intros n fuel Hn Hf.
  - assert (E : (n <? base)%Z = true).
    { apply Z.ltb_lt. change (Z.of_nat 1) with 1%Z in Hn. lia. }
    cbn [digits_of fixed_digits]. rewrite E. cbn [length].
    apply Z.ltb_lt in E. rewrite Z.mod_small by lia.
    split; [lia | reflexivity].
  - cbn [digits_of]. destruct (n <? base)%Z eqn:E.
    + apply Z.ltb_lt in E. cbn [length].
      split; [lia|].
      change (fixed_digits base (S (S w)) n)
        with (fixed_digits base (S w) (n / base)
              ++ String (digit_char (n mod base)) "").
      rewrite Z.div_small, Z.mod_small, fixed_digits_zero by lia.
      replace (S (S w) - 1) with (S w) by lia. reflexivity.
    + apply Z.ltb_ge in E.
      assert (Hq : (0 <= n / base < base ^ Z.of_nat (S w))%Z).
      { split; [apply Z.div_pos; lia|].
        apply Z.div_lt_upper_bound; [lia|].
        rewrite <- Z.pow_succ_r by lia. rewrite <- Nat2Z.inj_succ. lia. }
      destruct fuel as [|fuel].
      { change (2 ^ Z.of_nat 1)%Z with 2%Z in Hf. lia. }
      assert (Hf' : (n / base < 2 ^ Z.of_nat (S fuel))%Z).
      { apply Z.le_lt_trans with (n / 2)%Z.
        - apply Z.div_le_compat_l; lia.
        - apply Z.div_lt_upper_bound; [lia|].
          rewrite <- Z.pow_succ_r by lia. rewrite <- Nat2Z.inj_succ. lia. }
      destruct (IH (n / base)%Z fuel Hq Hf') as [Hlen Heq].
      rewrite length_app. cbn [length]. split; [lia|].
      change (fixed_digits base (S (S w)) n)
        with (fixed_digits base (S w) (n / base)
              ++ String (digit_char (n mod base)) "").
      rewrite <- Heq, app_assoc_s.
      replace (S (S w) - (length (digits_of base (S fuel) (n / base)) + 1))
        with (S w - length (digits_of base (S fuel) (n / base))) by lia.
      reflexivity.
Qed.

Lemma format_int_fixed w n :
  (0 <= n < base ^ Z.of_nat (S w))%Z ->
  format_int base (S w) n = fixed_digits base (S w) n.
Proof.
  intros Hn. unfold format_int.
  assert (E : (n <? 0)%Z = false) by (apply Z.ltb_ge; lia).
  rewrite E, Z.abs_eq by lia. cbn [append length].
  rewrite Nat.sub_0_r.
  apply digits_of_padded; [exact Hn|].
  rewrite Nat2Z.inj_succ, Z2Nat.id by apply Z.log2_nonneg.
  destruct (Z.eq_dec n 0) as [->|]; [reflexivity|].
  apply Z.log2_spec. lia.
Qed.

(** The digits of a number are those of its quotient by a power of the
    base, then those of the remainder. *)
Lemma fixed_digits_split w1 w2 n :
  fixed_digits base (w1 + w2) n
  = fixed_digits base w1 (n / base ^ Z.of_nat w2)
    ++ fixed_digits base w2 (n mod base ^ Z.of_nat w2).
Proof.
  revert n; induction w2 as [|w2 IH]; intros n.
  - rewrite Nat.add_0_r. cbn [Z.of_nat fixed_digits].
    now rewrite Z.pow_0_r, Z.div_1_r, app_empty_r.
  - rewrite Nat.add_succ_r. cbn [fixed_digits].
    rewrite IH, app_assoc_s.
    rewrite Nat2Z.inj_succ, Z.pow_succ_r by lia.
    assert (Hp : (0 < base ^ Z.of_nat w2)%Z) by (apply Z.pow_pos_nonneg; lia).
    rewrite Z.div_div by lia.
    rewrite (Z.rem_mul_r n base (base ^ Z.of_nat w2)) by lia.
    replace ((n mod base + base * ((n / base) mod base ^ Z.of_nat w2)) / base)%Z
      with ((n / base) mod base ^ Z.of_nat w2)%Z.
    2:{ rewrite (Z.mul_comm base), Z.div_add by lia.
        rewrite (Z.div_small (n mod base) base) by (apply Z.mod_pos_bound; lia).
        reflexivity. }
    replace ((n mod base + base * ((n / base) mod base ^ Z.of_nat w2)) mod base)%Z
      with (n mod base)%Z.
    2:{ rewrite (Z.mul_comm base), Z.mod_add by lia.
        now rewrite Z.mod_mod by lia. }
    reflexivity.
Qed.

Lemma digit_value_char d :
  (0 <= d < 16)%Z -> digit_value (digit_char d) = Some d.
Proof.
  intros H.
  assert (E : (d = 0 \/ d = 1 \/ d = 2 \/ d = 3 \/ d = 4 \/ d = 5 \/ d = 6
               \/ d = 7 \/ d = 8 \/ d = 9 \/ d = 10 \/ d = 11 \/ d = 12
               \/ d = 13 \/ d = 14 \/ d = 15)%Z) by lia.
  repeat (destruct E as [-> | E]; [reflexivity|]). now subst.
Qed.

Lemma int_digits_app s t acc :
  int_digits base acc (s ++ t)
  = match int_digits base acc s with
    | Some a => int_digits base a t
    | None => None
    end.
Proof.
  revert acc; induction s as [|c s IH]; intros acc; [reflexivity|].
  cbn [append int_digits].
  destruct (digit_value c) as [d|]; [|reflexivity].
  destruct (d <? base)%Z; [apply IH | reflexivity].
Qed.

(** [int] reads the digits of a number back. *)
Lemma int_digits_fixed w n acc :
  int_digits base acc (fixed_digits base w n)
  = Some (acc * base ^ Z.of_nat w + n mod base ^ Z.of_nat w)%Z.
Proof.
  revert n acc; induction w as [|w IH]; intros n acc.
  - cbn [fixed_digits int_digits Z.of_nat].
    rewrite Z.pow_0_r, Z.mod_1_r. f_equal. lia.
  - cbn [fixed_digits]. rewrite int_digits_app, IH. cbn [int_digits].
    assert (Hd : (0 <= n mod base < base)%Z) by (apply Z.mod_pos_bound; lia).
    rewrite digit_value_char by lia.
    assert (E : (n mod base <? base)%Z = true) by (apply Z.ltb_lt; lia).
    rewrite E. f_equal.
    rewrite Nat2Z.inj_succ, Z.pow_succ_r by lia.
    assert (Hp : (0 < base ^ Z.of_nat w)%Z) by (apply Z.pow_pos_nonneg; lia).
    rewrite (Z.rem_mul_r n base (base ^ Z.of_nat w)) by lia.
    ring.
Qed.

Lemma int_of_fixed w n :
  int_of (fixed_digits base (S w) n) base
  = Some (n mod base ^ Z.of_nat (S w))%Z.
Proof.
  unfold int_of.
  destruct (fixed_digits base (S w) n) as [|c s] eqn:E.
  - apply (f_equal length) in E. rewrite length_fixed_digits in E. discriminate.
  - rewrite <- E, int_digits_fixed. f_equal.
Qed.

End Digits.

(** *** The integer behind the bytes *)

(** [struct.unpack] gives back the low 64 bits of the pattern
    [struct.pack] laid out. *)
Lemma unpack_pack x :
  unpack_Q (pack_d x) = Some (bits_of_float64 x mod 2 ^ 64)%Z.
Proof.
  unfold unpack_Q, pack_d. cbn [map List.length Nat.eqb fold_left].
  f_equal. set (b := bits_of_float64 x).
  change (2 ^ 64)%Z with (2 ^ 56 * 256)%Z.
  rewrite (Z.rem_mul_r b (2 ^ 56) 256) by lia.
  change (2 ^ 56)%Z with (2 ^ 48 * 256)%Z at 1.
  rewrite (Z.rem_mul_r b (2 ^ 48) 256) by lia.
  change (2 ^ 48)%Z with (2 ^ 40 * 256)%Z at 1.
  rewrite (Z.rem_mul_r b (2 ^ 40) 256) by lia.
  change (2 ^ 40)%Z with (2 ^ 32 * 256)%Z at 1.
  rewrite (Z.rem_mul_r b (2 ^ 32) 256) by lia.
  change (2 ^ 32)%Z with (2 ^ 24 * 256)%Z at 1.
  rewrite (Z.rem_mul_r b (2 ^ 24) 256) by lia.
  change (2 ^ 24)%Z with (2 ^ 16 * 256)%Z at 1.
  rewrite (Z.rem_mul_r b (2 ^ 16) 256) by lia.
  change (2 ^ 16)%Z with (2 ^ 8 * 256)%Z at 1.
  rewrite (Z.rem_mul_r b (2 ^ 8) 256) by lia.
  change (2 ^ 8)%Z with 256%Z. change (8 * 0)%Z with 0%Z.
  rewrite Z.pow_0_r, Z.div_1_r.
  change (8 * 1)%Z with 8%Z. change (8 * 2)%Z with 16%Z.
  change (8 * 3)%Z with 24%Z. change (8 * 4)%Z with 32%Z.
  change (8 * 5)%Z with 40%Z. change (8 * 6)%Z with 48%Z.
  change (8 * 7)%Z with 56%Z.
  change (2 ^ 8)%Z with 256%Z.
  lia.
Qed.

Lemma fixed_digits_low base w n :
  (2 <= base <= 16)%Z ->
  fixed_digits base w (n mod base ^ Z.of_nat w) = fixed_digits base w n.
Proof.
  intros H. pose proof (fixed_digits_split base H 0 w n) as E.
  cbn [Nat.add fixed_digits append] in E. now symmetry.
Qed.

Lemma substring_head_n a s n : length a = n -> substring 0 n (a ++ s) = a.
Proof. intros <-. apply substring_head. Qed.

Lemma substring_skip_n a s k n m :
  length a = k -> substring (k + n) m (a ++ s) = substring n m s.
Proof. intros <-. apply substring_skip. Qed.

Lemma take_app_n a s n : length a = n -> take n (a ++ s) = Some (a, s).
Proof. intros <-. apply take_app. Qed.

(** The 64 binary digits of a pattern are its sign bit, its eleven
    exponent bits and its 52 fraction bits. *)
Lemma fixed_digits_64 v :
  fixed_digits 2 64 v
  = fixed_digits 2 1 (v / 2 ^ 63) ++ fixed_digits 2 11 (v / 2 ^ 52)
    ++ fixed_digits 2 52 v.
Proof.
  assert (H : (2 <= 2 <= 16)%Z) by lia.
  change 64 with (12 + 52). rewrite (fixed_digits_split 2 H 12 52 v).
  change 12 with (1 + 11). rewrite (fixed_digits_split 2 H 1 11).
  rewrite !fixed_digits_low by exact H.
  rewrite Z.div_div by lia.
  change (2 ^ Z.of_nat 52 * 2 ^ Z.of_nat 11)%Z with (2 ^ 63)%Z.
  change (2 ^ Z.of_nat 52)%Z with (2 ^ 52)%Z.
  now rewrite app_assoc_s.
Qed.

(** *** What [double_to_smt] returns *)

Theorem double_to_smt_literal x :
  double_to_smt x = Some (literal_of (bits_of_float64 x mod 2 ^ 64)).
Proof.
  assert (H2 : (2 <= 2 <= 16)%Z) by lia.
  assert (H16 : (2 <= 16 <= 16)%Z) by lia.
  unfold double_to_smt. rewrite unpack_pack.
  set (v := (bits_of_float64 x mod 2 ^ 64)%Z).
  assert (Hv : (0 <= v < 2 ^ 64)%Z) by (apply Z.mod_pos_bound; lia).
  rewrite (format_int_fixed 2 H2 63 v) by exact Hv.
  rewrite fixed_digits_64.
  set (a := fixed_digits 2 1 (v / 2 ^ 63)).
  set (b := fixed_digits 2 11 (v / 2 ^ 52)).
  set (c := fixed_digits 2 52 v).
  assert (La : length a = 1) by apply (length_fixed_digits 2).
  assert (Lb : length b = 11) by apply (length_fixed_digits 2).
  assert (Lc : length c = 52) by apply (length_fixed_digits 2).
  unfold slice, slice_from.
  rewrite !length_app, La, Lb, Lc.
  change (1 - 0) with 1. change (12 - 1) with 11.
  change (1 + (11 + 52) - 12) with 52.
  rewrite (substring_head_n a (b ++ c) 1 La).
  pose proof (substring_skip_n a (b ++ c) 1 0 11 La) as E1.
  pose proof (substring_skip_n a (b ++ c) 1 11 52 La) as E2.
  pose proof (substring_skip_n b c 11 0 52 Lb) as E3.
  change (1 + 0) with 1 in E1. change (1 + 11) with 12 in E2.
  change (11 + 0) with 11 in E3.
  rewrite E1, E2, E3, (substring_head_n b c 11 Lb).
  replace (substring 0 52 c) with c
    by (symmetry; rewrite <- Lc; apply substring_all).
  unfold c. rewrite (int_of_fixed 2 H2 51 v).
  rewrite (format_int_fixed 16 H16 12).
  2:{ change (16 ^ Z.of_nat 13)%Z with (2 ^ Z.of_nat 52)%Z.
      apply Z.mod_pos_bound. reflexivity. }
  change (2 ^ Z.of_nat 52)%Z with (16 ^ Z.of_nat 13)%Z.
  rewrite (fixed_digits_low 16 13 v H16).
  reflexivity.
Qed.

(** Reading the literal of a 64-bit pattern back gives the pattern. *)
Lemma reassemble_literal v :
  (0 <= v < 2 ^ 64)%Z -> reassemble (literal_of v) = Some v.
Proof.
  intros Hv.
  assert (H2 : (2 <= 2 <= 16)%Z) by lia.
  assert (H16 : (2 <= 16 <= 16)%Z) by lia.
  unfold reassemble, fields, literal_of.
  rewrite after_prefix_app.
  rewrite (take_app_n _ _ 1 (length_fixed_digits 2 1 _)).
  rewrite after_prefix_app.
  rewrite (take_app_n _ _ 11 (length_fixed_digits 2 11 _)).
  rewrite after_prefix_app.
  rewrite (take_app_n _ _ 13 (length_fixed_digits 16 13 _)).
  cbn [String.eqb Ascii.eqb Bool.eqb].
  rewrite (int_of_fixed 2 H2 0), (int_of_fixed 2 H2 10), (int_of_fixed 16 H16 12).
  f_equal.
  change (2 ^ Z.of_nat 1)%Z with 2%Z.
  change (2 ^ Z.of_nat 11)%Z with 2048%Z.
  change (16 ^ Z.of_nat 13)%Z with 4503599627370496%Z.
  change (2 ^ 63)%Z with 9223372036854775808%Z.
  change (2 ^ 52)%Z with 4503599627370496%Z.
  change (2 ^ 64)%Z with 18446744073709551616%Z in Hv.
  Z.div_mod_to_equations. lia.
Qed.

(** For every double, the fields of its literal put together again are
    the 64 bits [struct.pack] lays out. *)
Theorem double_to_smt_reads_back :
  forall x,
  exists lit,
    double_to_smt x = Some lit
    /\ reassemble lit = Some (bits_of_float64 x mod 2 ^ 64)%Z.
Proof.
  intros x. exists (literal_of (bits_of_float64 x mod 2 ^ 64)). split.
  - apply double_to_smt_literal.
  - apply reassemble_literal. apply Z.mod_pos_bound. reflexivity.
Qed.

Lemma double_to_smt_total x : exists lit, double_to_smt x = Some lit.
Proof. rewrite double_to_smt_literal. eauto. Qed.

(** *** The literals of the test doubles *)

(** A round trip checked by evaluation. *)
Lemma round_trip_by_evaluation x :
  match double_to_smt x with
  | Some lit =>
      match reassemble lit with
      | Some b => (b =? bits_of_float64 x)%Z
      | None => false
      end
  | None => false
  end = true ->
  exists lit,
    double_to_smt x = Some lit /\ reassemble lit = Some (bits_of_float64 x).
Proof.
  destruct (double_to_smt x) as [lit|]; [|discriminate].
  destruct (reassemble lit) as [b|] eqn:R; [|discriminate].
  intros E. apply Z.eqb_eq in E. subst b. exists lit. now split.
Qed.

(** C4.  For each of the ten test doubles the three fields of the
    literal, read back and put together, give the 64-bit pattern of the
    double; the patterns are the IEEE-754 ones, and the literal of [1.0]
    is the one the specification quotes. *)
Theorem double_to_smt_round_trip :
  Forall (fun x =>
            canonical x = true
            /\ exists lit,
                 double_to_smt x = Some lit
                 /\ reassemble lit = Some (bits_of_float64 x))
         test_doubles
  /\ map bits_of_float64 test_doubles
     = [0x3ff0000000000000; 0xbff0000000000000;
        0x4000000000000000; 0xc000000000000000;
        0x0000000000000000; 0x8000000000000000;
        0x7ff0000000000000; 0xfff0000000000000;
        0x0000000000000001; 0x8000000000000001]%Z
  /\ double_to_smt d_one = Some "(fp #b0 #b01111111111 #x0000000000000)".
Proof.
  split; [|split; vm_compute; reflexivity].
  unfold test_doubles.
  repeat (apply Forall_cons;
          [split; [vm_compute; reflexivity
                  | apply round_trip_by_evaluation; vm_compute; reflexivity]|]).
  apply Forall_nil.
Qed.

(** C9.  The literals of [0.0] and [-0.0] have the same exponent field,
    eleven zeros, and the same significand field, thirteen zeros; their
    sign fields are [0] and [1], and nothing else sets them apart. *)
Theorem double_to_smt_signed_zero :
  exists lit_pos lit_neg rest,
    double_to_smt d_zero = Some lit_pos
    /\ double_to_smt d_minus_zero = Some lit_neg
    /\ fields lit_pos = Some ("0", "00000000000", "0000000000000")
    /\ fields lit_neg = Some ("1", "00000000000", "0000000000000")
    /\ lit_pos = "(fp #b" ++ "0" ++ rest
    /\ lit_neg = "(fp #b" ++ "1" ++ rest.
Proof.
  exists "(fp #b0 #b00000000000 #x0000000000000)",
         "(fp #b1 #b00000000000 #x0000000000000)",
         " #b00000000000 #x0000000000000)".
  repeat split; vm_compute; reflexivity.
Qed.

(** *** The fixture generator *)

Lemma format_run_line var lit :
  format "; RUN: grep '%s -> %s' %%t2" [var; lit]
  = Some (run_line var lit).
Proof. reflexivity. Qed.

Lemma format_fadd_line var num :
  format "%%%s = fadd double 0.0, %s" [var; num]
  = Some (fadd_line var num).
Proof.
  unfold fadd_line.
  change (format "%%%s = fadd double 0.0, %s" [var; num])
    with (Some ("%" ++ var ++ " = fadd double 0.0, " ++ num ++ "")).
  now rewrite app_empty_r.
Qed.

Section GenLiteralTestFacts.

Variable py_float : string -> option float64.

(** The first loop over any pairs on whose literals [float] succeeds. *)
Lemma run_lines_printed pairs out :
  Forall (fun p => exists x, py_float (snd p) = Some x) pairs ->
  exists lines,
    for_each (print_run_line py_float) out pairs = Some (out ++ lines)%list
    /\ Forall2 (fun p line =>
                  exists x lit,
                    py_float (snd p) = Some x
                    /\ double_to_smt x = Some lit
                    /\ line = run_line (fst p) lit)
               pairs lines.
Proof.
  intros H; revert out; induction H as [|[var num] pairs (x & Hx) _ IH]; intros out.
  - exists []. split; [simpl; now rewrite app_nil_r | constructor].
  - destruct (double_to_smt_total x) as (lit & Hlit).
    cbn [for_each print_run_line]. cbn [snd] in Hx.
    rewrite Hx, Hlit, format_run_line.
    destruct (IH (out ++ [run_line var lit])%list)
      as (lines & -> & Hlines).
    eexists (_ :: lines). split; [now rewrite <- app_assoc|].
    constructor; [|exact Hlines]. exists x, lit. auto.
Qed.

(** The second loop. *)
Lemma fadd_lines_printed pairs out :
  for_each print_fadd_line out pairs
  = Some (out ++ map (fun p => fadd_line (fst p) (snd p)) pairs)%list.
Proof.
  revert out; induction pairs as [|[var num] pairs IH]; intros out.
  - simpl. now rewrite app_nil_r.
  - cbn [for_each print_fadd_line]. rewrite format_fadd_line, IH.
    cbn [map fst snd]. now rewrite <- app_assoc.
Qed.

End GenLiteralTestFacts.
Lemma zip_letters_nums :
  zip_chars ascii_letters nums
  = [("a", "1.0"); ("b", "-1.0"); ("c", "2.0"); ("d", "-2.0");
     ("e", "+0.0"); ("f", "-0.0"); ("g", "+inf"); ("h", "-inf");
     ("i", "4.9406564584124654e-324"); ("j", "-4.9406564584124654e-324")].
Proof. reflexivity. Qed.

(** C8.  Provided [float] reads each of the ten literals, the generator
    prints twenty lines: line [i] is the verification directive saying
    that the [i]-th letter maps to the literal of the [i]-th double, and
    line [10 + i] is the instruction adding the [i]-th literal text to
    zero under the same letter; both blocks follow the order of the
    list. *)
Theorem gen_literal_test_pairs :
  forall py_float,
  (forall num, In num nums -> exists x, py_float num = Some x) ->
  exists out,
    gen_literal_test py_float = Some out
    /\ List.length out = 20
    /\ forall i, i < 10 ->
         exists x lit,
           py_float (nth i nums "") = Some x
           /\ double_to_smt x = Some lit
           /\ nth_error out i
              = Some (run_line (letter i) lit)
           /\ nth_error out (10 + i)
              = Some (fadd_line (letter i) (nth i nums "")).
Proof.
  intros py_float H.
  assert (Hp : Forall (fun p => exists x, py_float (snd p) = Some x)
                      (zip_chars ascii_letters nums)).
  { rewrite zip_letters_nums.
    repeat (apply Forall_cons; [apply H; simpl; tauto|]). apply Forall_nil. }
  destruct (run_lines_printed py_float _ [] Hp) as (lines & Hrun & Hrel).
  unfold gen_literal_test. rewrite Hrun, fadd_lines_printed.
  rewrite zip_letters_nums in Hrel |- *.
  repeat match goal with
         | R : Forall2 _ (_ :: _) _ |- _ =>
             inversion R as [|? ? ? ? (? & ? & ? & ? & ?) ?]; subst; clear R
         | R : Forall2 _ [] _ |- _ => inversion R; subst; clear R
         end.
  cbn [fst snd] in *.
  eexists. split; [reflexivity|]. split; [reflexivity|].
  intros i Hi.
  do 10 (destruct i as [|i]; [eexists _, _; repeat split; eassumption|]).
  lia.
Qed.

Lemma gen_literal_test_pairs_witness :
  exists out,
    gen_literal_test float_of_literal = Some out
    /\ List.length out = 20
    /\ forall i, i < 10 ->
         exists x lit,
           float_of_literal (nth i nums "") = Some x
           /\ double_to_smt x = Some lit
           /\ nth_error out i
              = Some (run_line (letter i) lit)
           /\ nth_error out (10 + i)
              = Some (fadd_line (letter i) (nth i nums "")).
Proof.
  apply (gen_literal_test_pairs float_of_literal).
  intros num Hin. simpl in Hin.
  repeat (destruct Hin as [<- | Hin]; [eexists; reflexivity|]).
  destruct Hin.
Defined.

(** What the generator prints when [float] reads the literals as the
    test doubles. *)
Example gen_literal_test_output :
  gen_literal_test float_of_literal
  = Some
      ["; RUN: grep 'a -> (fp #b0 #b01111111111 #x0000000000000)' %t2";
       "; RUN: grep 'b -> (fp #b1 #b01111111111 #x0000000000000)' %t2";
       "; RUN: grep 'c -> (fp #b0 #b10000000000 #x0000000000000)' %t2";
       "; RUN: grep 'd -> (fp #b1 #b10000000000 #x0000000000000)' %t2";
       "; RUN: grep 'e -> (fp #b0 #b00000000000 #x0000000000000)' %t2";
       "; RUN: grep 'f -> (fp #b1 #b00000000000 #x0000000000000)' %t2";
       "; RUN: grep 'g -> (fp #b0 #b11111111111 #x0000000000000)' %t2";
       "; RUN: grep 'h -> (fp #b1 #b11111111111 #x0000000000000)' %t2";
       "; RUN: grep 'i -> (fp #b0 #b00000000000 #x0000000000001)' %t2";
       "; RUN: grep 'j -> (fp #b1 #b00000000000 #x0000000000001)' %t2";
       "%a = fadd double 0.0, 1.0"; "%b = fadd double 0.0, -1.0";
       "%c = fadd double 0.0, 2.0"; "%d = fadd double 0.0, -2.0";
       "%e = fadd double 0.0, +0.0"; "%f = fadd double 0.0, -0.0";
       "%g = fadd double 0.0, +inf"; "%h = fadd double 0.0, -inf";
       "%i = fadd double 0.0, 4.9406564584124654e-324";
       "%j = fadd double 0.0, -4.9406564584124654e-324"].
Proof. vm_compute. reflexivity. Qed.

End DoubleToSmtFacts.

(* ================================================================== *)
(** ** Further properties of check.py *)
(* ================================================================== *)

Module CheckMore.
Import Py Check CheckFacts.

Section Outcomes.

Variable colored : string -> option string -> list string -> string.

(** A run over lines that all pass prints their warnings and falls off
    the end of the loop. *)
Lemma scan_all_pass argv lines out :
  Forall (fun p => passes argv p = true) lines ->
  scan colored argv lines out
  = ((out ++ bottom_warnings colored lines)%list, Finished).
Proof.
  intros H.
  rewrite <- (app_nil_r lines) at 1.
  now rewrite (scan_passes colored argv lines [] out H).
Qed.

(** Where a run that ends in [sys.exit] stopped. *)
Lemma scan_exit argv lines out code :
  snd (scan colored argv lines out) = Exited code ->
  code = 0%Z
  /\ exists pre line post key value rest,
       lines = (pre ++ line :: post)%list
       /\ Forall (fun p => passes argv p = true) pre
       /\ split line " -> " = key :: value :: rest
       /\ nth_error argv 2 = Some key
       /\ value <> "bottom".
Proof.
  remember (nth_error argv 2) as a2 eqn:E2.
  remember (nth_error argv 3) as a3 eqn:E3.
  revert out; induction lines as [|line lines IH]; intros out; [discriminate|].
  cbn [scan]. rewrite <- E2, <- E3.
  destruct (split line " -> ") as [|key [|value rest]] eqn:E;
    cbn [nth_error]; try discriminate.
  assert (Rec : forall out',
             snd (scan colored argv lines out') = Exited code ->
             passes argv line = true ->
             code = 0%Z
             /\ exists pre l post k v r,
                  (line :: lines = pre ++ l :: post)%list
                  /\ Forall (fun p => passes argv p = true) pre
                  /\ split l " -> " = k :: v :: r
                  /\ a2 = Some k
                  /\ v <> "bottom").
  { intros out' X P. destruct (IH out' X) as (C & pre & l & post & k & v & r & -> & Hpre & Hs & Hk & Hv).
    split; [exact C|]. exists (line :: pre), l, post, k, v, r.
    repeat split; auto. }
  assert (Stop : a2 = Some key -> (value =? "bottom") = false ->
                 exists pre l post k v r,
                   (line :: lines = pre ++ l :: post)%list
                   /\ Forall (fun p => passes argv p = true) pre
                   /\ split l " -> " = k :: v :: r
                   /\ a2 = Some k
                   /\ v <> "bottom").
  { intros K B. exists [], line, lines, key, value, rest.
    repeat split; auto. now apply String.eqb_neq. }
  assert (Hp : passes argv line
               = (value =? "bottom") || negb (2 <? List.length argv)%nat
                 || match a2 with
                    | Some target => negb (key =? target)
                    | None => false
                    end).
  { unfold passes. rewrite E, E2. reflexivity. }
  destruct (value =? "bottom") eqn:B;
    [intros X; apply (Rec _ X); rewrite Hp; reflexivity|].
  destruct (2 <? List.length argv)%nat;
    [|intros X; apply (Rec _ X); rewrite Hp; reflexivity].
  destruct a2 as [target|]; [|discriminate].
  destruct (key =? target) eqn:K.
  - apply String.eqb_eq in K. subst target.
    destruct (value =? "top").
    + intros X. injection X as <-. split; [reflexivity | now apply Stop].
    + destruct a3 as [expected|]; [|discriminate].
      destruct (value =? expected); intros X; injection X as <-;
        (split; [reflexivity | now apply Stop]).
  - intros X. apply (Rec _ X). rewrite Hp. reflexivity.
Qed.


End Outcomes.

(** When no line is the target's with a value other than ["bottom"],
    and every line holds the separator, the run prints the warnings of
    the ["bottom"] lines, no verdict at all, and ends normally; so it
    does when no target is given. *)
Theorem check_without_verdict :
  forall colored argv content,
  (2 <= List.length argv)%nat ->
  Forall (fun p => passes argv p = true) (result_lines content) ->
  check colored argv content
  = (bottom_warnings colored (result_lines content), Finished).
Proof.
  intros colored argv content Hargv H. unfold check.
  destruct (nth_error argv 1) eqn:E.
  - now rewrite scan_all_pass.
  - apply nth_error_None in E. lia.
Qed.

Lemma check_without_verdict_witness :
  check ansi_colored ["check.py"; "out.txt"; "z"; "5"]
        ("x -> 5" ++ nl ++ "y -> bottom" ++ nl ++ "z -> bottom" ++ nl)
  = (bottom_warnings ansi_colored
       (result_lines ("x -> 5" ++ nl ++ "y -> bottom" ++ nl ++ "z -> bottom" ++ nl)),
     Finished).
Proof.
  apply (check_without_verdict ansi_colored ["check.py"; "out.txt"; "z"; "5"]
           ("x -> 5" ++ nl ++ "y -> bottom" ++ nl ++ "z -> bottom" ++ nl)).
  - simpl; lia.
  - repeat constructor.
Defined.

(** A run ends in [sys.exit] only with status 0 and only at a line whose
    identifier is the target given on the command line and whose value
    is not ["bottom"], every line before it having passed. *)
Theorem check_exits_only_at_target_line :
  forall colored argv content code,
  snd (check colored argv content) = Exited code ->
  code = 0%Z
  /\ exists pre line post key value rest,
       result_lines content = (pre ++ line :: post)%list
       /\ Forall (fun p => passes argv p = true) pre
       /\ split line " -> " = key :: value :: rest
       /\ nth_error argv 2 = Some key
       /\ value <> "bottom".
Proof.
  intros colored argv content code. unfold check.
  destruct (nth_error argv 1); [|discriminate].
  apply scan_exit.
Qed.

Lemma check_exits_only_at_target_line_witness :
  0%Z = 0%Z
  /\ exists pre line post key value rest,
       result_lines ("y -> 1" ++ nl ++ "x -> top" ++ nl)
       = (pre ++ line :: post)%list
       /\ Forall (fun p => passes ["check.py"; "out.txt"; "x"; "5"] p = true) pre
       /\ split line " -> " = key :: value :: rest
       /\ nth_error ["check.py"; "out.txt"; "x"; "5"] 2 = Some key
       /\ value <> "bottom".
Proof.
  apply (check_exits_only_at_target_line ansi_colored
           ["check.py"; "out.txt"; "x"; "5"]
           ("y -> 1" ++ nl ++ "x -> top" ++ nl) 0%Z).
  reflexivity.
Defined.


(** With a target but no expected value on the command line, the first
    line of the target whose value is neither ["bottom"] nor ["top"]
    makes line 28 raise [IndexError]: the run dies with a non-zero
    status, having printed only the earlier warnings. *)
Theorem check_target_without_expected :
  forall colored prog file target content pre line post value rest,
  result_lines content = (pre ++ line :: post)%list ->
  Forall (fun p => passes [prog; file; target] p = true) pre ->
  split line " -> " = target :: value :: rest ->
  value <> "bottom" ->
  value <> "top" ->
  check colored [prog; file; target] content
  = (bottom_warnings colored pre, Raised IndexError 28).
Proof.
  intros colored prog file target content pre line post value rest
         Hlines Hpre Hsplit Hb Ht.
  unfold check. cbn [nth_error]. rewrite Hlines.
  rewrite (scan_passes colored _ pre (line :: post) [] Hpre).
  cbn [scan app]. rewrite Hsplit. cbn [nth_error List.length Nat.ltb Nat.leb].
  apply String.eqb_neq in Hb, Ht. rewrite Hb, Ht, String.eqb_refl.
  reflexivity.
Qed.

Lemma check_target_without_expected_witness :
  check ansi_colored ["check.py"; "out.txt"; "x"]
        ("y -> bottom" ++ nl ++ "x -> 5" ++ nl)
  = (bottom_warnings ansi_colored ["y -> bottom"], Raised IndexError 28).
Proof.
  apply (check_target_without_expected ansi_colored "check.py" "out.txt" "x"
           ("y -> bottom" ++ nl ++ "x -> 5" ++ nl)
           ["y -> bottom"] "x -> 5" [] "5" []).
  - reflexivity.
  - repeat constructor.
  - reflexivity.
  - discriminate.
  - discriminate.
Defined.

End CheckMore.

(* ================================================================== *)
(** ** Further properties of extract_config.py *)
(* ================================================================== *)

Module ExtractConfigMore.
Import Py ExtractConfig ExtractConfigFacts.

(** *** Lines of a file and their terminators *)

Lemma endswith_cons c t :
  t <> "" -> endswith (String c t) nl = endswith t nl.
Proof.
  intros H. destruct t as [|d t]; [congruence|].
  unfold endswith. cbn [length nl Nat.leb Nat.sub andb].
  rewrite Nat.sub_0_r. reflexivity.
Qed.

Lemma endswith_snoc_char cur c :
  endswith (cur ++ String c "") nl = Ascii.eqb c "010".
Proof.
  induction cur as [|d cur IH].
  - unfold endswith. cbn. destruct (Ascii.eqb c "010"); reflexivity.
  - cbn [append]. rewrite endswith_cons; [exact IH|]. now destruct cur.
Qed.

Lemma endswith_single c : endswith (String c "") nl = Ascii.eqb c "010".
Proof. exact (endswith_snoc_char "" c). Qed.

Lemma endswith_snoc_nl cur : endswith (cur ++ nl) nl = true.
Proof. unfold nl at 1. now rewrite endswith_snoc_char. Qed.

(** A content that is empty or ends in a line break splits into
    terminated lines only. *)
Lemma readlines_from_terminated s cur :
  (s = "" -> cur = "") ->
  (s <> "" -> endswith s nl = true) ->
  Forall (fun l => endswith l nl = true) (readlines_from cur s).
Proof.
  revert cur; induction s as [|c s IH]; intros cur Hcur Hend.
  - rewrite (Hcur eq_refl). constructor.
  - cbn [readlines_from]. destruct (Ascii.eqb c "010") eqn:E.
    + constructor; [apply endswith_snoc_nl|].
      apply IH; [reflexivity|].
      intros Hs. rewrite <- (endswith_cons c s Hs). now apply Hend.
    + destruct s as [|d s].
      * exfalso. assert (X : endswith (String c "") nl = true) by now apply Hend.
        rewrite endswith_single, E in X. discriminate.
      * apply IH; [discriminate|].
        intros Hs. rewrite <- (endswith_cons c _ Hs). now apply Hend.
Qed.


(** *** The pattern of line 6 *)

Lemma findall_from_short s k : length s <= k -> findall_from k s = [].
Proof.
  revert k; induction s as [|c s IH]; intros k H; [reflexivity|].
  cbn [length] in H. destruct k as [|k]; [lia|].
  cbn [findall_from]. apply IH. lia.
Qed.

Lemma through_newline_line b :
  chars_all (fun c => c <> "010"%char) b ->
  through_newline (b ++ nl) = Some (b ++ nl).
Proof.
  induction b as [|c b IH]; intros H; [reflexivity|].
  destruct H as [Hc Hb]. cbn [append through_newline].
  destruct (Ascii.eqb c "010") eqn:E.
  - apply Ascii.eqb_eq in E. contradiction.
  - now rewrite (IH Hb).
Qed.

Lemma prefix_of_longer p x y :
  length p <= length x -> prefix p (x ++ y) = prefix p x.
Proof.
  revert x; induction p as [|a p IH]; intros x H.
  - now destruct x, y.
  - destruct x as [|c x]; [simpl in H; lia|].
    cbn [append prefix]. destruct (ascii_dec a c); [|reflexivity].
    apply IH. simpl in H. lia.
Qed.

Lemma length_append (a b : string) : length (a ++ b) = length a + length b.
Proof. induction a as [|c a IH]; simpl; [reflexivity | now rewrite IH]. Qed.

Lemma append_assoc_e (a b c : string) : (a ++ b) ++ c = a ++ b ++ c.
Proof. induction a as [|x a IH]; simpl; [reflexivity | now rewrite IH]. Qed.

Lemma findall_from_0 c s :
  findall_from 0 (String c s)
  = if prefix "CONFIG:" (String c s) then
      match through_newline (drop 7 (String c s)) with
      | Some tail => ("CONFIG:", tail) :: findall_from (6 + length tail) s
      | None => findall_from 0 s
      end
    else findall_from 0 s.
Proof. reflexivity. Qed.

(** A line matches once, at its first marker, when what follows the
    marker runs to the end of the line without a break. *)
Lemma findall_first_marker a b :
  contains "CONFIG:" (a ++ "CONFIG") = false ->
  chars_all (fun c => c <> "010"%char) b ->
  findall (a ++ "CONFIG:" ++ b ++ nl) = [("CONFIG:", b ++ nl)].
Proof.
  intros Ha Hb. unfold findall. induction a as [|c a IH].
  - assert (P : prefix "CONFIG:" (String "C" ("ONFIG:" ++ b ++ nl)) = true)
      by exact (ConvertOldConfigFacts.prefix_append "CONFIG:" (b ++ nl)).
    change ("" ++ "CONFIG:" ++ b ++ nl) with (String "C" ("ONFIG:" ++ b ++ nl)).
    rewrite findall_from_0, P.
    change (drop 7 (String "C" ("ONFIG:" ++ b ++ nl))) with (b ++ nl).
    rewrite (through_newline_line b Hb).
    rewrite findall_from_short; [reflexivity|]. cbn [length append]. lia.
  - cbn [append contains] in Ha. apply orb_false_elim in Ha.
    destruct Ha as [Hp Hc].
    assert (E : prefix "CONFIG:" (String c (a ++ "CONFIG:" ++ b ++ nl)) = false).
    { change (String c (a ++ "CONFIG:" ++ b ++ nl))
        with (String c (a ++ "CONFIG" ++ ":" ++ b ++ nl)).
      rewrite <- (append_assoc_e a "CONFIG").
      change (String c ((a ++ "CONFIG") ++ ":" ++ b ++ nl))
        with (String c (a ++ "CONFIG") ++ ":" ++ b ++ nl).
      rewrite prefix_of_longer; [exact Hp|].
      cbn [length]. rewrite length_append. simpl. lia. }
    change (String c a ++ "CONFIG:" ++ b ++ nl)
      with (String c (a ++ "CONFIG:" ++ b ++ nl)).
    rewrite findall_from_0, E. exact (IH Hc).
Qed.

Lemma findall_without_marker s :
  contains "CONFIG:" s = false -> findall_from 0 s = [].
Proof.
  induction s as [|c s IH]; intros H; [reflexivity|].
  cbn [contains] in H. apply orb_false_elim in H. destruct H as [Hp Hc].
  rewrite findall_from_0, Hp. exact (IH Hc).
Qed.

(** *** [strip] and the terminator *)

Lemma rstrip_snoc p s c :
  p c = true -> rstrip p (s ++ String c "") = rstrip p s.
Proof.
  intros H. induction s as [|d s IH].
  - cbn. now rewrite H.
  - cbn [append rstrip]. now rewrite IH.
Qed.

Lemma strip_with_snoc p s c :
  p c = true -> strip_with p (s ++ String c "") = strip_with p s.
Proof.
  intros H. unfold strip_with. induction s as [|d s IH].
  - cbn. now rewrite H.
  - cbn [append lstrip]. destruct (p d); [exact IH|].
    change (String d (s ++ String c "")) with (String d s ++ String c "").
    now apply rstrip_snoc.
Qed.

(** *** The script on a file *)

(** On a file that is empty or ends in a line break the script ends
    normally, having written, in the order of the lines, the payload of
    every line. *)
Theorem run_on_complete_file :
  forall content,
  content = "" \/ endswith content nl = true ->
  run content = (flat_map writes_of (readlines content), Finished).
Proof.
  intros content H. unfold run.
  assert (T : Forall (fun l => endswith l nl = true) (readlines content)).
  { apply readlines_from_terminated; [reflexivity|].
    intros Hne. destruct H as [H | H]; [congruence | exact H]. }
  rewrite <- (app_nil_r (readlines content)) at 1.
  now rewrite (main_terminated _ [] [] T).
Qed.

Lemma run_on_complete_file_witness :
  run ("int a;" ++ nl ++ "// CONFIG: x=1" ++ nl ++ "# CONFIG:   y = 2  " ++ nl)
  = (flat_map writes_of
       (readlines ("int a;" ++ nl ++ "// CONFIG: x=1" ++ nl
                   ++ "# CONFIG:   y = 2  " ++ nl)),
     Finished).
Proof.
  apply (run_on_complete_file
           ("int a;" ++ nl ++ "// CONFIG: x=1" ++ nl ++ "# CONFIG:   y = 2  " ++ nl)).
  right. reflexivity.
Defined.



(** A line yields one payload, the text between its first marker and
    its line break with the blanks at both ends removed, whatever
    markers that text holds itself. *)
Theorem writes_of_first_marker :
  forall a b,
  contains "CONFIG:" (a ++ "CONFIG") = false ->
  chars_all (fun c => c <> "010"%char) b ->
  writes_of (a ++ "CONFIG:" ++ b ++ nl) = [strip b ++ nl].
Proof.
  intros a b Ha Hb. unfold writes_of.
  rewrite (findall_first_marker a b Ha Hb). cbn [map snd].
  unfold strip, nl at 1. now rewrite strip_with_snoc.
Qed.

Lemma writes_of_first_marker_witness :
  writes_of ("// " ++ "CONFIG:" ++ "  x=1 CONFIG: y " ++ nl)
  = [strip "  x=1 CONFIG: y " ++ nl].
Proof.
  apply (writes_of_first_marker "// " "  x=1 CONFIG: y ").
  - reflexivity.
  - cbn. repeat split; discriminate.
Defined.

(** A line without the marker yields nothing. *)
Theorem writes_of_without_marker :
  forall line, contains "CONFIG:" line = false -> writes_of line = [].
Proof.
  intros line H. unfold writes_of, findall.
  now rewrite (findall_without_marker line H).
Qed.

Lemma writes_of_without_marker_witness :
  writes_of ("int config = 1; // CONFIG x" ++ nl) = [].
Proof.
  apply (writes_of_without_marker ("int config = 1; // CONFIG x" ++ nl)).
  reflexivity.
Defined.

End ExtractConfigMore.

(* ================================================================== *)
(** ** Further properties of convert_old_config.py *)
(* ================================================================== *)

Module ConvertOldConfigMore.
Import Py ConvertOldConfig ConvertOldConfigFacts.

(** *** The three regions of the reading loop *)

Lemma payload_plain line : plain line = true -> payload_of line = "".
Proof.
  unfold plain, is_directive, payload_of.
  now destruct (config_re_match line) as [[g1 g2]|].
Qed.

Lemma plain_no_match line : plain line = true -> config_re_match line = None.
Proof.
  unfold plain, is_directive.
  now destruct (config_re_match line).
Qed.

(** Before the first directive every line goes to the leading region. *)
Lemma fold_before before pre :
  Forall (fun l => plain l = true) before ->
  fold_left scan_step before (mk_scan pre [] "" None)
  = mk_scan (pre ++ before) [] "" None.
Proof.
  intros H; revert pre; induction H as [|l before Hl _ IH]; intros pre.
  - simpl. now rewrite app_nil_r.
  - cbn [fold_left]. unfold scan_step at 2.
    rewrite (plain_no_match l Hl). cbn [prefix_of lines_pre lines_post yaml_src].
    rewrite IH. now rewrite <- app_assoc.
Qed.

(** Behind it, plain lines go to the trailing region and directives to
    the document; the leading region stays. *)
Lemma fold_after rest pre post src g :
  exists g',
    fold_left scan_step rest (mk_scan pre post src (Some g))
    = mk_scan pre (post ++ filter plain rest) (src ++ document_of rest)
              (Some g').
Proof.
  revert post src g; induction rest as [|l rest IH]; intros post src g.
  - exists g. cbn. now rewrite app_nil_r, append_nil_r.
  - cbn [fold_left filter]. unfold scan_step at 2.
    unfold document_of. cbn [map text_of fold_right].
    unfold plain at 1, is_directive, payload_of.
    destruct (config_re_match l) as [[g1 g2]|];
      cbn [prefix_of lines_pre lines_post yaml_src negb].
    + destruct (IH post (src ++ nl ++ g2) g1) as (g' & ->).
      exists g'. unfold document_of. now rewrite !append_assoc.
    + destruct (IH (post ++ [l])%list src g) as (g' & ->).
      exists g'. unfold document_of. cbn [append].
      now rewrite <- app_assoc.
Qed.

(** The text of the lines of a content is the content. *)
Lemma text_of_readlines_from s cur :
  text_of (readlines_from cur s) = cur ++ s.
Proof.
  revert cur; induction s as [|c s IH]; intros cur.
  - cbn [readlines_from]. destruct cur; [reflexivity|].
    cbn [text_of fold_right]. now rewrite !append_nil_r.
  - cbn [readlines_from]. destruct (Ascii.eqb c "010") eqn:E.
    + apply Ascii.eqb_eq in E. subst c.
      cbn [text_of fold_right]. fold (text_of (readlines_from "" s)).
      rewrite IH. unfold nl. now rewrite append_assoc.
    + rewrite IH. now rewrite append_assoc.
Qed.

Lemma text_of_readlines content : text_of (readlines content) = content.
Proof. apply (text_of_readlines_from content ""). Qed.

Lemma write_items_any py_str prefix out items :
  write_items py_str prefix out items
  = (out ++ text_of (map (config_line py_str (str_of_prefix prefix)) items),
     true).
Proof.
  revert out; induction items as [|[k v] items IH]; intros out.
  - simpl. now rewrite append_nil_r.
  - cbn [write_items map text_of fold_right].
    change (format ("%s config.%s = %s" ++ nl)
                   [str_of_prefix prefix; py_str k; py_str v])
      with (Some (config_line py_str (str_of_prefix prefix) (k, v))).
    cbv beta iota. rewrite IH. now rewrite append_assoc.
Qed.

(** The state the loop ends in on lines with a first directive. *)
Lemma scan_split :
  forall before first rest,
  Forall (fun l => plain l = true) before ->
  is_directive first = true ->
  exists g,
    scan (before ++ first :: rest)
    = mk_scan before (filter plain rest) (document_of (first :: rest))
              (Some g).
Proof.
  intros before first rest Hbefore Hfirst.
  unfold scan, scan_init. rewrite fold_left_app, (fold_before before [] Hbefore).
  cbn [fold_left app]. unfold scan_step at 2.
  unfold document_of. cbn [map text_of fold_right].
  unfold is_directive in Hfirst. unfold payload_of at 1.
  destruct (config_re_match first) as [[g1 g2]|]; [|discriminate].
  cbn [prefix_of lines_pre lines_post yaml_src].
  destruct (fold_after rest before [] ("" ++ nl ++ g2) g1) as (g & ->).
  exists g. reflexivity.
Qed.

(** The lines before the first directive make up the leading region,
    the plain lines behind it the trailing region, in their order, and
    the directives from the first one on the document; no directive
    line reaches either region. *)
Theorem scan_regions :
  forall before first rest,
  Forall (fun l => plain l = true) before ->
  is_directive first = true ->
  exists g,
    scan (before ++ first :: rest)
    = mk_scan before (filter plain rest) (document_of (first :: rest))
              (Some g).
Proof. exact scan_split. Qed.

Lemma scan_regions_witness :
  exists g,
    scan (["int a;" ++ nl]
          ++ ("// CONFIG: AbstractDomain: [Interval]" ++ nl)
             :: ["int b;" ++ nl; "# CONFIG: widening: 3" ++ nl; "int c;" ++ nl])
    = mk_scan ["int a;" ++ nl]
        (filter plain ["int b;" ++ nl; "# CONFIG: widening: 3" ++ nl; "int c;" ++ nl])
        (document_of
           (("// CONFIG: AbstractDomain: [Interval]" ++ nl)
            :: ["int b;" ++ nl; "# CONFIG: widening: 3" ++ nl; "int c;" ++ nl]))
        (Some g).
Proof.
  apply (scan_regions ["int a;" ++ nl]
           ("// CONFIG: AbstractDomain: [Interval]" ++ nl)
           ["int b;" ++ nl; "# CONFIG: widening: 3" ++ nl; "int c;" ++ nl]).
  - repeat constructor.
  - reflexivity.
Defined.

(** A successful run leaves the file as its leading lines, one line per
    remaining key and the line of the domains, all with the same
    prefix, and then the plain lines that followed the first directive;
    every directive line of the old file is gone, wherever it stood. *)
Theorem main_rewrites_regions :
  forall yaml_load py_str content before first rest items domains xs,
  readlines content = (before ++ first :: rest)%list ->
  Forall (fun l => plain l = true) before ->
  is_directive first = true ->
  yaml_load (document_of (first :: rest)) = Some (VDict items) ->
  lookup "AbstractDomain" items = Some domains ->
  iter domains = Some xs ->
  exists prefix,
    main yaml_load py_str content
    = (text_of (before
                ++ map (config_line py_str prefix) (other_items items)
                ++ [domain_line py_str prefix xs]
                ++ filter plain rest),
       Finished).
Proof.
  intros yaml_load py_str content before first rest items domains xs
         Hlines Hbefore Hfirst Hload Hdom Hiter.
  destruct (scan_split before first rest Hbefore Hfirst) as (g & Hscan).
  exists g.
  rewrite (main_finishes yaml_load py_str content items domains xs g).
  - now rewrite Hlines, Hscan.
  - now rewrite Hlines, Hscan.
  - exact Hdom.
  - exact Hiter.
  - now rewrite Hlines, Hscan.
Qed.

Lemma main_rewrites_regions_witness :
  exists prefix,
    main fixture_load fixture_str
         ("int a;" ++ nl ++ "// CONFIG: AbstractDomain: [Interval]" ++ nl
          ++ "int b;" ++ nl ++ "# CONFIG: widening: 3" ++ nl ++ "int c;" ++ nl)
    = (text_of (["int a;" ++ nl]
                ++ map (config_line fixture_str prefix)
                       (other_items
                          [(VStr "AbstractDomain", VList [VStr "Interval"]);
                           (VStr "widening", VInt 3)])
                ++ [domain_line fixture_str prefix [VStr "Interval"]]
                ++ filter plain ["int b;" ++ nl; "# CONFIG: widening: 3" ++ nl;
                                 "int c;" ++ nl]),
       Finished).
Proof.
  apply (main_rewrites_regions fixture_load fixture_str
           ("int a;" ++ nl ++ "// CONFIG: AbstractDomain: [Interval]" ++ nl
            ++ "int b;" ++ nl ++ "# CONFIG: widening: 3" ++ nl ++ "int c;" ++ nl)
           ["int a;" ++ nl]
           ("// CONFIG: AbstractDomain: [Interval]" ++ nl)
           ["int b;" ++ nl; "# CONFIG: widening: 3" ++ nl; "int c;" ++ nl]
           [(VStr "AbstractDomain", VList [VStr "Interval"]);
            (VStr "widening", VInt 3)]
           (VList [VStr "Interval"]) [VStr "Interval"]).
  - reflexivity.
  - repeat constructor.
  - reflexivity.
  - reflexivity.
  - reflexivity.
  - reflexivity.
Defined.

(** On a file without any directive line the document is empty; with
    the parser giving [None] for it, line 34 raises [TypeError], and the
    file, emptied and written again line by line, holds what it held. *)
Theorem main_without_directives :
  forall yaml_load py_str content,
  Forall (fun l => plain l = true) (readlines content) ->
  yaml_load "" = Some VNone ->
  main yaml_load py_str content = (content, Raised TypeError 34).
Proof.
  intros yaml_load py_str content Hplain Hload.
  assert (E : scan (readlines content) = mk_scan (readlines content) [] "" None).
  { unfold scan, scan_init.
    now rewrite (fold_before (readlines content) [] Hplain). }
  unfold main. rewrite E. cbn [yaml_src lines_pre]. rewrite Hload.
  cbn [getitem]. now rewrite write_all_text, text_of_readlines.
Qed.

Lemma main_without_directives_witness :
  main (fun _ => Some VNone) fixture_str ("int a;" ++ nl ++ "int b;")
  = ("int a;" ++ nl ++ "int b;", Raised TypeError 34).
Proof.
  apply (main_without_directives (fun _ => Some VNone) fixture_str
           ("int a;" ++ nl ++ "int b;")).
  - repeat constructor.
  - reflexivity.
Defined.

(** A document that parses to something other than a mapping, a list or
    a scalar say, makes line 34 raise [TypeError] after the file was
    emptied: only the leading lines are left in it. *)
Theorem main_document_not_a_mapping :
  forall yaml_load py_str content v,
  yaml_load (yaml_src (scan (readlines content))) = Some v ->
  (forall items, v <> VDict items) ->
  main yaml_load py_str content
  = (text_of (lines_pre (scan (readlines content))), Raised TypeError 34).
Proof.
  intros yaml_load py_str content v Hload Hv. unfold main. rewrite Hload.
  rewrite write_all_text.
  destruct v; try reflexivity. now destruct (Hv items).
Qed.

Lemma main_document_not_a_mapping_witness :
  main (fun _ => Some (VList [VStr "Interval"])) fixture_str
       ("int a;" ++ nl ++ "// CONFIG: - Interval" ++ nl ++ "int b;" ++ nl)
  = ("int a;" ++ nl, Raised TypeError 34).
Proof.
  apply (main_document_not_a_mapping (fun _ => Some (VList [VStr "Interval"]))
           fixture_str
           ("int a;" ++ nl ++ "// CONFIG: - Interval" ++ nl ++ "int b;" ++ nl)
           (VList [VStr "Interval"])).
  - reflexivity.
  - discriminate.
Defined.

(** A domain entry that cannot be iterated, a number say, makes line 40
    raise [TypeError] once the lines of the other keys are written: the
    file keeps the leading lines and those, and loses the trailing
    lines. *)
Theorem main_domains_not_iterable :
  forall yaml_load py_str content items domains,
  yaml_load (yaml_src (scan (readlines content))) = Some (VDict items) ->
  lookup "AbstractDomain" items = Some domains ->
  iter domains = None ->
  main yaml_load py_str content
  = (text_of (lines_pre (scan (readlines content))
              ++ map (config_line py_str
                        (str_of_prefix (prefix_of (scan (readlines content)))))
                     (other_items items)),
     Raised TypeError 40).
Proof.
  intros yaml_load py_str content items domains Hload Hdom Hiter.
  unfold main. rewrite Hload. cbn [getitem delitem]. rewrite Hdom.
  cbn [items_of]. fold (other_items items).
  rewrite write_items_any, Hiter, write_all_text, text_of_app.
  reflexivity.
Qed.

Lemma main_domains_not_iterable_witness :
  main (fun _ => Some (VDict [(VStr "AbstractDomain", VInt 3);
                              (VStr "widening", VInt 3)]))
       fixture_str
       ("int a;" ++ nl ++ "// CONFIG: {AbstractDomain: 3, widening: 3}" ++ nl
        ++ "int b;" ++ nl)
  = ("int a;" ++ nl ++ "// CONFIG: config.widening = 3" ++ nl,
     Raised TypeError 40).
Proof.
  apply (main_domains_not_iterable
           (fun _ => Some (VDict [(VStr "AbstractDomain", VInt 3);
                                  (VStr "widening", VInt 3)]))
           fixture_str
           ("int a;" ++ nl ++ "// CONFIG: {AbstractDomain: 3, widening: 3}" ++ nl
            ++ "int b;" ++ nl)
           [(VStr "AbstractDomain", VInt 3); (VStr "widening", VInt 3)]
           (VInt 3)).
  - reflexivity.
  - reflexivity.
  - reflexivity.
Defined.

End ConvertOldConfigMore.

(* ================================================================== *)
(** ** Further properties of double_to_smt.py *)
(* ================================================================== *)

Module DoubleToSmtMore.
Import Py DoubleToSmt DoubleToSmtFacts.

Local Open Scope Z_scope.

(** *** The pattern of a double as sign and magnitude *)

Lemma lor_shiftl_add a n b :
  0 <= n -> 0 <= b < 2 ^ n -> Z.lor (Z.shiftl a n) b = a * 2 ^ n + b.
Proof.
  intros Hn Hb.
  assert (L : Z.land (Z.shiftl a n) b = 0).
  { apply Z.bits_inj'. intros i Hi. rewrite Z.land_spec, Z.bits_0.
    destruct (Z.lt_ge_cases i n) as [Hlt | Hge].
    - now rewrite Z.shiftl_spec_low.
    - destruct (Z.eq_dec b 0) as [-> | Hb0].
      + now rewrite Z.bits_0, andb_false_r.
      + rewrite (Z.bits_above_log2 b i), andb_false_r; [reflexivity | lia |].
        apply Z.lt_le_trans with n; [|exact Hge].
        apply Z.log2_lt_pow2; lia. }
  rewrite <- Z.lxor_lor by exact L.
  rewrite <- Z.add_nocarry_lxor by exact L.
  now rewrite Z.shiftl_mul_pow2.
Qed.

Lemma digits2_pos_upper m : Zpos m < 2 ^ Zpos (digits2_pos m).
Proof.
  induction m as [m IH | m IH |]; cbn [digits2_pos].
  - rewrite Pos2Z.inj_succ, Z.pow_succ_r by lia. lia.
  - rewrite Pos2Z.inj_succ, Z.pow_succ_r by lia. lia.
  - reflexivity.
Qed.

Lemma digits2_pos_lower m : 2 ^ (Zpos (digits2_pos m) - 1) <= Zpos m.
Proof.
  induction m as [m IH | m IH |]; cbn [digits2_pos].
  - rewrite Pos2Z.inj_succ.
    replace (Z.succ (Zpos (digits2_pos m)) - 1)
      with (Z.succ (Zpos (digits2_pos m) - 1)) by lia.
    rewrite Z.pow_succ_r by lia. lia.
  - rewrite Pos2Z.inj_succ.
    replace (Z.succ (Zpos (digits2_pos m)) - 1)
      with (Z.succ (Zpos (digits2_pos m) - 1)) by lia.
    rewrite Z.pow_succ_r by lia. lia.
  - reflexivity.
Qed.

(** What being a binary64 datum says of mantissa and exponent. *)
Lemma bounded_range m e :
  bounded 53 1024 m e = true ->
  Zpos m < 2 ^ 53
  /\ -1074 <= e <= 971
  /\ (Zpos m < 2 ^ 52 -> e = -1074).
Proof.
  unfold bounded, canonical_mantissa, fexp, emin. intros H.
  apply andb_true_iff in H. destruct H as [Hc He].
  apply Z.eqb_eq in Hc. apply Z.leb_le in He.
  pose proof (digits2_pos_upper m) as Hu.
  pose proof (digits2_pos_lower m) as Hl.
  set (d := Zpos (digits2_pos m)) in *.
  assert (Hd : 0 < d) by (unfold d; lia).
  assert (Hd53 : d <= 53) by lia.
  split; [|split].
  - apply Z.lt_le_trans with (2 ^ d); [exact Hu|].
    apply Z.pow_le_mono_r; lia.
  - lia.
  - intros Hm.
    assert (Hd52 : d <= 52).
    { destruct (Z.le_gt_cases d 52) as [|Hgt]; [assumption|].
      assert (2 ^ 52 <= 2 ^ (d - 1)) by (apply Z.pow_le_mono_r; lia). lia. }
    lia.
Qed.

Lemma magnitude_range x :
  canonical x = true -> 0 <= magnitude_bits x < 2 ^ 63.
Proof.
  destruct x as [s | s | | s m e]; cbn [canonical magnitude_bits];
    try (intros _; split; [discriminate | reflexivity]).
  intros H. destruct (bounded_range m e H) as (Hm & He & _).
  change (2 ^ 53) with 9007199254740992 in Hm.
  change (2 ^ 52) with 4503599627370496.
  change (2 ^ 63) with 9223372036854775808.
  destruct (4503599627370496 <=? Zpos m) eqn:E.
  - apply Z.leb_le in E. lia.
  - apply Z.leb_gt in E. lia.
Qed.

Lemma bits_sign_magnitude x :
  canonical x = true ->
  bits_of_float64 x = sign_bit (sign_of x) * 2 ^ 63 + magnitude_bits x.
Proof.
  intros H. pose proof (magnitude_range x H) as R.
  destruct x as [s | s | | s m e];
    cbn [bits_of_float64 sign_of magnitude_bits] in *.
  - rewrite Z.shiftl_mul_pow2 by lia. lia.
  - rewrite Z.shiftl_mul_pow2 with (a := 2047) by lia.
    apply lor_shiftl_add; lia.
  - reflexivity.
  - cbn [canonical] in H. destruct (bounded_range m e H) as (Hm & He & _).
    change (Z.shiftl 1 52) with (2 ^ 52).
    change (2 ^ 53) with 9007199254740992 in Hm.
    change (2 ^ 52) with 4503599627370496 in *.
    destruct (4503599627370496 <=? Zpos m) eqn:E.
    + apply Z.leb_le in E.
      rewrite (lor_shiftl_add (e + 1075) 52 (Zpos m - 4503599627370496))
        by (change (2 ^ 52) with 4503599627370496; lia).
      change (2 ^ 52) with 4503599627370496.
      apply lor_shiftl_add; [lia|].
      change (2 ^ 52) with 4503599627370496 in R. exact R.
    + apply lor_shiftl_add; [lia | exact R].
Qed.

Lemma bits_range x :
  canonical x = true -> 0 <= bits_of_float64 x < 2 ^ 64.
Proof.
  intros H. rewrite (bits_sign_magnitude x H).
  pose proof (magnitude_range x H) as R.
  change (2 ^ 63) with 9223372036854775808 in *.
  change (2 ^ 64) with 18446744073709551616.
  destruct (sign_of x); cbn [sign_bit]; lia.
Qed.

(** The literal of a pattern given as sign and magnitude. *)
Lemma literal_of_sign_magnitude sb mag :
  sb = 0 \/ sb = 1 ->
  0 <= mag < 2 ^ 63 ->
  literal_of (sb * 2 ^ 63 + mag)
  = ("(fp #b" ++ String (digit_char sb) ""
     ++ " #b" ++ fixed_digits 2 11 (mag / 2 ^ 52)
     ++ " #x" ++ fixed_digits 16 13 mag ++ ")")%string.
Proof.
  intros Hsb Hmag.
  assert (H2 : 2 <= 2 <= 16) by lia.
  assert (H16 : 2 <= 16 <= 16) by lia.
  unfold literal_of.
  rewrite <- (fixed_digits_low 2 11 ((sb * 2 ^ 63 + mag) / 2 ^ 52) H2).
  rewrite <- (fixed_digits_low 2 11 (mag / 2 ^ 52) H2).
  rewrite <- (fixed_digits_low 16 13 (sb * 2 ^ 63 + mag) H16).
  rewrite <- (fixed_digits_low 16 13 mag H16).
  cbn [fixed_digits append].
  change (2 ^ Z.of_nat 11) with 2048.
  change (16 ^ Z.of_nat 13) with 4503599627370496.
  change (2 ^ 63) with 9223372036854775808 in *.
  change (2 ^ 52) with 4503599627370496.
  replace (((sb * 9223372036854775808 + mag) / 9223372036854775808) mod 2)
    with sb
    by (destruct Hsb as [-> | ->]; Z.div_mod_to_equations; lia).
  replace (((sb * 9223372036854775808 + mag) / 4503599627370496) mod 2048)
    with ((mag / 4503599627370496) mod 2048)
    by (destruct Hsb as [-> | ->]; Z.div_mod_to_equations; lia).
  replace ((sb * 9223372036854775808 + mag) mod 4503599627370496)
    with (mag mod 4503599627370496)
    by (destruct Hsb as [-> | ->]; Z.div_mod_to_equations; lia).
  reflexivity.
Qed.

Lemma sign_bit_cases s : sign_bit s = 0 \/ sign_bit s = 1.
Proof. destruct s; auto. Qed.

(** *** What the literal says of the double *)



(** A double and its negation have literals that differ in the sign
    character only. *)
Theorem double_to_smt_negation :
  forall x,
  canonical x = true ->
  x <> S754_nan ->
  exists rest,
    double_to_smt x
    = Some ("(fp #b" ++ (if sign_of x then "1" else "0") ++ rest)%string
    /\ double_to_smt (SFopp x)
       = Some ("(fp #b" ++ (if sign_of x then "0" else "1") ++ rest)%string.
Proof.
  intros x H Hnan.
  assert (Ho : canonical (SFopp x) = true) by (destruct x; exact H).
  assert (Hm : magnitude_bits (SFopp x) = magnitude_bits x)
    by (destruct x; reflexivity).
  assert (Hs : sign_of (SFopp x) = negb (sign_of x))
    by (destruct x; [reflexivity | reflexivity | congruence | reflexivity]).
  pose proof (magnitude_range x H) as R.
  exists (" #b" ++ fixed_digits 2 11 (magnitude_bits x / 2 ^ 52)
          ++ " #x" ++ fixed_digits 16 13 (magnitude_bits x) ++ ")")%string.
  rewrite !double_to_smt_literal.
  rewrite !Z.mod_small by (apply bits_range; assumption).
  rewrite (bits_sign_magnitude x H), (bits_sign_magnitude (SFopp x) Ho), Hm, Hs.
  rewrite !literal_of_sign_magnitude by (auto using sign_bit_cases).
  destruct (sign_of x); split; reflexivity.
Qed.

Lemma double_to_smt_negation_witness :
  exists rest,
    double_to_smt (S754_finite false 7074237752028440 (-51))
    = Some ("(fp #b"
            ++ (if sign_of (S754_finite false 7074237752028440 (-51))
                then "1" else "0") ++ rest)%string
    /\ double_to_smt (SFopp (S754_finite false 7074237752028440 (-51)))
       = Some ("(fp #b"
               ++ (if sign_of (S754_finite false 7074237752028440 (-51))
                   then "0" else "1") ++ rest)%string.
Proof.
  apply (double_to_smt_negation (S754_finite false 7074237752028440 (-51))).
  - vm_compute. reflexivity.
  - discriminate.
Defined.





End DoubleToSmtMore.

(* ================================================================== *)
(** ** The scripts together *)
(* ================================================================== *)

Module Pipeline.
Import Py.

(** *** check.py: the lattice tokens as expected values *)

(** Asking for ["bottom"] or ["top"] as the expected value never gives
    [Success]: a run that exits has printed, after the warnings, the top
    notice or the two failure lines. *)
Theorem check_expected_token_never_succeeds :
  forall colored prog file target expected more content code,
  expected = "bottom" \/ expected = "top" ->
  snd (Check.check colored (prog :: file :: target :: expected :: more) content)
  = Exited code ->
  exists pre value,
    fst (Check.check colored (prog :: file :: target :: expected :: more) content)
    = (Check.bottom_warnings colored pre ++ Check.top_notice colored target)%list
    \/ fst (Check.check colored (prog :: file :: target :: expected :: more) content)
       = (Check.bottom_warnings colored pre
          ++ Check.failure_notice colored target value expected)%list.
Proof.
  intros colored prog file target expected more content code Hexp Hexit.
  set (argv := prog :: file :: target :: expected :: more) in *.
  assert (E : Check.check colored argv content
              = Check.scan colored argv (Check.result_lines content) [])
    by reflexivity.
  rewrite E in Hexit |- *.
  destruct (CheckMore.scan_exit colored argv _ [] code Hexit)
    as (_ & pre & line & post & key & value & rest & -> & Hpre & Hsplit & Hkey & Hval).
  cbn [argv nth_error] in Hkey. injection Hkey as <-.
  exists pre, value.
  rewrite (CheckFacts.scan_passes colored argv pre (line :: post) [] Hpre).
  cbn [Check.scan app]. rewrite Hsplit.
  cbn [nth_error argv List.length Nat.ltb Nat.leb].
  apply String.eqb_neq in Hval. rewrite Hval, String.eqb_refl.
  unfold Check.cprint.
  destruct (value =? "top") eqn:T; [left; reflexivity|].
  right.
  assert (X : (value =? expected) = false).
  { destruct Hexp as [-> | ->]; assumption. }
  rewrite X. cbn [fst]. unfold Check.failure_notice. now rewrite <- app_assoc.
Qed.

Lemma check_expected_token_never_succeeds_witness :
  exists pre value,
    fst (Check.check Check.ansi_colored ["check.py"; "out.txt"; "x"; "top"]
           ("y -> bottom" ++ nl ++ "x -> top" ++ nl))
    = (Check.bottom_warnings Check.ansi_colored pre
       ++ Check.top_notice Check.ansi_colored "x")%list
    \/ fst (Check.check Check.ansi_colored ["check.py"; "out.txt"; "x"; "top"]
              ("y -> bottom" ++ nl ++ "x -> top" ++ nl))
       = (Check.bottom_warnings Check.ansi_colored pre
          ++ Check.failure_notice Check.ansi_colored "x" value "top")%list.
Proof.
  apply (check_expected_token_never_succeeds Check.ansi_colored
           "check.py" "out.txt" "x" "top" []
           ("y -> bottom" ++ nl ++ "x -> top" ++ nl) 0%Z).
  - right. reflexivity.
  - reflexivity.
Defined.

(** *** extract_config.py on what convert_old_config.py writes *)

Lemma chars_all_append P (a b : string) :
  chars_all P a -> chars_all P b -> chars_all P (a ++ b).
Proof. induction a as [|c a IH]; simpl; [auto | intuition]. Qed.

Lemma chars_all_join P sep pieces :
  chars_all P sep ->
  Forall (chars_all P) pieces ->
  chars_all P (join sep pieces).
Proof.
  intros Hsep H. unfold join. induction H as [|x pieces Hx Hrest IH].
  - exact I.
  - cbn [String.concat]. destruct pieces as [|y pieces]; [exact Hx|].
    apply chars_all_append; [exact Hx|].
    apply chars_all_append; [exact Hsep | exact IH].
Qed.

(** The payload of a line made of a prefix that ends in the first
    marker and of a text without line break. *)
Lemma writes_of_prefixed t b :
  contains "CONFIG:" (t ++ "CONFIG") = false ->
  chars_all (fun c => c <> "010"%char) b ->
  ExtractConfig.writes_of ((t ++ "CONFIG:") ++ b ++ nl) = [strip b ++ nl].
Proof.
  intros Ht Hb. rewrite ExtractConfigMore.append_assoc_e.
  unfold ExtractConfig.writes_of.
  rewrite (ExtractConfigMore.findall_first_marker t b Ht Hb). cbn [map snd].
  unfold strip, nl at 1. now rewrite ExtractConfigMore.strip_with_snoc.
Qed.

(** The directive lines the migration writes are directives for the
    extractor: from the line of a key it takes the assignment
    [config.<key> = <value>], from the line of the domains the
    assignment of the list of lookups, when the prefix holds no marker
    before its last one and the printed keys and values hold no line
    break. *)
Theorem extract_of_migrated_lines :
  forall py_str t kv domains,
  contains "CONFIG:" (t ++ "CONFIG") = false ->
  chars_all (fun c => c <> "010"%char) (py_str (fst kv)) ->
  chars_all (fun c => c <> "010"%char) (py_str (snd kv)) ->
  Forall (fun x => chars_all (fun c => c <> "010"%char) (py_str x)) domains ->
  ExtractConfig.writes_of
    (ConvertOldConfig.config_line py_str (t ++ "CONFIG:") kv)
  = [strip (" config." ++ py_str (fst kv) ++ " = " ++ py_str (snd kv)) ++ nl]
  /\ ExtractConfig.writes_of
       (ConvertOldConfig.domain_line py_str (t ++ "CONFIG:") domains)
     = [strip (" config.AbstractDomain = ["
               ++ join ", " (map (fun x => "globals()['" ++ py_str x ++ "']")
                                 domains)
               ++ "]") ++ nl].
Proof.
  intros py_str t kv domains Ht Hk Hv Hd.
  assert (A : forall a b c d : string,
             a ++ b ++ c ++ d ++ nl = (a ++ b ++ c ++ d) ++ nl).
  { intros a b c d. now rewrite !ExtractConfigMore.append_assoc_e. }
  split.
  - unfold ConvertOldConfig.config_line. rewrite A.
    apply writes_of_prefixed; [exact Ht|].
    apply chars_all_append; [cbn; repeat split; discriminate|].
    apply chars_all_append; [exact Hk|].
    apply chars_all_append; [cbn; repeat split; discriminate|].
    exact Hv.
  - unfold ConvertOldConfig.domain_line.
    assert (B : forall a b c : string, a ++ b ++ c ++ nl = (a ++ b ++ c) ++ nl).
    { intros a b c. now rewrite !ExtractConfigMore.append_assoc_e. }
    rewrite B.
    apply writes_of_prefixed; [exact Ht|].
    apply chars_all_append; [cbn; repeat split; discriminate|].
    apply chars_all_append; [|cbn; repeat split; discriminate].
    apply chars_all_join; [cbn; repeat split; discriminate|].
    apply Forall_map. eapply Forall_impl; [|exact Hd].
    intros x Hx. cbv beta.
    apply chars_all_append; [cbn; repeat split; discriminate|].
    apply chars_all_append; [exact Hx|].
    cbn; repeat split; discriminate.
Qed.

Lemma extract_of_migrated_lines_witness :
  ExtractConfig.writes_of
    (ConvertOldConfig.config_line ConvertOldConfig.fixture_str ("// " ++ "CONFIG:")
       (ConvertOldConfig.VStr "widening", ConvertOldConfig.VInt 3))
  = [strip (" config."
            ++ ConvertOldConfig.fixture_str
                 (fst (ConvertOldConfig.VStr "widening", ConvertOldConfig.VInt 3))
            ++ " = "
            ++ ConvertOldConfig.fixture_str
                 (snd (ConvertOldConfig.VStr "widening", ConvertOldConfig.VInt 3)))
     ++ nl]
  /\ ExtractConfig.writes_of
       (ConvertOldConfig.domain_line ConvertOldConfig.fixture_str
          ("// " ++ "CONFIG:") [ConvertOldConfig.VStr "Interval"])
     = [strip (" config.AbstractDomain = ["
               ++ join ", "
                    (map (fun x => "globals()['"
                                   ++ ConvertOldConfig.fixture_str x ++ "']")
                         [ConvertOldConfig.VStr "Interval"])
               ++ "]") ++ nl].
Proof.
  apply (extract_of_migrated_lines ConvertOldConfig.fixture_str "// "
           (ConvertOldConfig.VStr "widening", ConvertOldConfig.VInt 3)
           [ConvertOldConfig.VStr "Interval"]).
  - reflexivity.
  - cbn. repeat split; discriminate.
  - cbn. repeat split; discriminate.
  - repeat constructor; discriminate.
Defined.

End Pipeline.
